(** * Activity timeline and tag repository of the Answer Q&A application

    A shallow embedding of [internal/service/activity/activity.go] (the
    activity timeline renderer) and of the tag repository (package [tag]),
    followed by the properties of both that the specification states.

    Conventions of the embedding:
    - a Go [int]/[int64] is a [Z]; a [time.Time] is the [Z] of its Unix
      seconds, whose zero value is [0]; a Go [string] is a [string];
    - a Go [(value, err)] result is a sum [error + value]; a method that
      also writes to the log or to the tag table runs in a small state
      monad over what it can change;
    - the collaborators that live outside the two source files (object
      info, user, comment and revision services, the JSON decoder, the
      relational store behind the ORM session) are parameters or are
      modelled by their documented contract, each marked where defined. *)

From Stdlib Require Import ZArith List String Ascii Bool Lia DecimalString.
From Stdlib Require Import Sorting.Sorted.
From stdpp Require Import base gmap strings list.

Local Open Scope Z_scope.
Local Open Scope string_scope.

(** ** Errors and the log *)

(** [reason.DatabaseError] is the only reason code the two files use. *)
Inductive Reason := DatabaseError.

(** An error value: either raised by a collaborator (opaque message) or
    built by [errors.InternalServer(r).WithError(cause).WithStack()]. *)
Inductive error :=
| Err (msg : string)
| InternalServer (r : Reason) (cause : error).

(** One call of [log.Error] / [log.Errorf]: the message or format string
    and the error passed along, if any. *)
Record LogEntry := mkLog { log_msg : string; log_err : option error }.

(** ** The [strings] and [converter] helpers *)

Fixpoint string_drop (n : nat) (s : string) : string :=
  match n, s with
  | O, _ => s
  | S n', String _ s' => string_drop n' s'
  | S _, EmptyString => EmptyString
  end.

(** Go's [strings.Cut(s, sep)]: the text before and after the first
    occurrence of [sep], and whether [sep] occurs; [(s, "", false)] when it
    does not. *)
Fixpoint Cut (s sep : string) : string * string * bool :=
  if String.prefix sep s then
    (EmptyString, string_drop (String.length sep) s, true)
  else
    match s with
    | EmptyString => (s, EmptyString, false)
    | String c s' =>
        match Cut s' sep with
        | (before, after, true) => (String c before, after, true)
        | (_, _, false) => (s, EmptyString, false)
        end
    end.

(** Modelled from the spec: [converter.IntToString] is not among the source
    files; it renders an integer in decimal. *)
Definition IntToString (n : Z) : string := NilZero.string_of_int (Z.to_int n).

(** ** Entities *)

Module entity.

(** Modelled from the spec: the [entity] package is not among the source
    files. The numeric codes of its enumerations are left abstract. *)
Class Consts := {
  ActivityCancelled : Z;
  TagStatusAvailable : Z;
  TagStatusDeleted : Z
}.

Module Activity.
(** Modelled from the spec: {id, objectID, userID, activityType,
    revisionID, cancelled flag, cancelledAt, createdAt}. *)
Record t := mk {
  ID : string;
  ObjectID : string;
  UserID : string;
  ActivityType : Z;
  RevisionID : Z;
  Cancelled : Z;
  CancelledAt : Z;
  CreatedAt : Z
}.
End Activity.

Module Tag.
(** Modelled from the spec: {id, slugName, displayName, mainTagID,
    mainTagSlugName, recommend, reserved, status, questionCount,
    revisionID}, with the two further columns the sources name
    ([created_at], and [OriginalText] read by the timeline detail). *)
Record t := mk {
  ID : string;
  CreatedAt : Z;
  MainTagID : Z;
  MainTagSlugName : string;
  SlugName : string;
  DisplayName : string;
  OriginalText : string;
  QuestionCount : Z;
  Status : Z;
  Recommend : bool;
  Reserved : bool;
  RevisionID : string
}.

(** [&entity.Tag{}] *)
Definition zero : t :=
  mk EmptyString 0 0 EmptyString EmptyString EmptyString EmptyString 0 0
     false false EmptyString.

Definition set_ID (s : string) (x : t) : t :=
  mk s (CreatedAt x) (MainTagID x) (MainTagSlugName x) (SlugName x)
     (DisplayName x) (OriginalText x) (QuestionCount x) (Status x)
     (Recommend x) (Reserved x) (RevisionID x).

Definition set_CreatedAt (v : Z) (x : t) : t :=
  mk (ID x) v (MainTagID x) (MainTagSlugName x) (SlugName x)
     (DisplayName x) (OriginalText x) (QuestionCount x) (Status x)
     (Recommend x) (Reserved x) (RevisionID x).

Definition set_MainTagID (v : Z) (x : t) : t :=
  mk (ID x) (CreatedAt x) v (MainTagSlugName x) (SlugName x)
     (DisplayName x) (OriginalText x) (QuestionCount x) (Status x)
     (Recommend x) (Reserved x) (RevisionID x).

Definition set_MainTagSlugName (s : string) (x : t) : t :=
  mk (ID x) (CreatedAt x) (MainTagID x) s (SlugName x)
     (DisplayName x) (OriginalText x) (QuestionCount x) (Status x)
     (Recommend x) (Reserved x) (RevisionID x).

Definition set_DisplayName (s : string) (x : t) : t :=
  mk (ID x) (CreatedAt x) (MainTagID x) (MainTagSlugName x) (SlugName x)
     s (OriginalText x) (QuestionCount x) (Status x)
     (Recommend x) (Reserved x) (RevisionID x).

Definition set_OriginalText (s : string) (x : t) : t :=
  mk (ID x) (CreatedAt x) (MainTagID x) (MainTagSlugName x) (SlugName x)
     (DisplayName x) s (QuestionCount x) (Status x)
     (Recommend x) (Reserved x) (RevisionID x).

Definition set_RevisionID (s : string) (x : t) : t :=
  mk (ID x) (CreatedAt x) (MainTagID x) (MainTagSlugName x) (SlugName x)
     (DisplayName x) (OriginalText x) (QuestionCount x) (Status x)
     (Recommend x) (Reserved x) s.

Definition set_Recommend (b : bool) (x : t) : t :=
  mk (ID x) (CreatedAt x) (MainTagID x) (MainTagSlugName x) (SlugName x)
     (DisplayName x) (OriginalText x) (QuestionCount x) (Status x)
     b (Reserved x) (RevisionID x).

Definition set_Reserved (b : bool) (x : t) : t :=
  mk (ID x) (CreatedAt x) (MainTagID x) (MainTagSlugName x) (SlugName x)
     (DisplayName x) (OriginalText x) (QuestionCount x) (Status x)
     (Recommend x) b (RevisionID x).

Definition set_SlugName (s : string) (x : t) : t :=
  mk (ID x) (CreatedAt x) (MainTagID x) (MainTagSlugName x) s
     (DisplayName x) (OriginalText x) (QuestionCount x) (Status x)
     (Recommend x) (Reserved x) (RevisionID x).

Definition set_Status (v : Z) (x : t) : t :=
  mk (ID x) (CreatedAt x) (MainTagID x) (MainTagSlugName x) (SlugName x)
     (DisplayName x) (OriginalText x) (QuestionCount x) v
     (Recommend x) (Reserved x) (RevisionID x).

Definition set_QuestionCount (v : Z) (x : t) : t :=
  mk (ID x) (CreatedAt x) (MainTagID x) (MainTagSlugName x) (SlugName x)
     (DisplayName x) (OriginalText x) v (Status x)
     (Recommend x) (Reserved x) (RevisionID x).
End Tag.

(** The revision payloads the timeline detail decodes. *)
Record TagSimpleInfoForRevision := { rev_tag_SlugName : string }.

Record QuestionWithTagsRevision := {
  qrev_Title : string;
  qrev_OriginalText : string;
  qrev_Tags : list TagSimpleInfoForRevision
}.

Record Answer := { answer_OriginalText : string }.

Record Revision := { rev_ObjectID : string; rev_Content : string }.

End entity.

(** ** Request and response shapes

    The structs of package [schema] that the two files build or read, with
    the fields they touch. *)

Module schema.

Record GetObjectTimelineReq := { ObjectID : string; ShowVote : bool }.

Record ActObjectInfo := {
  info_Title : string;
  info_ObjectType : string;
  info_QuestionID : string;
  info_AnswerID : string
}.

Module ActObjectTimeline.
Record t := mk {
  ActivityID : string;
  RevisionID : string;
  CreatedAt : Z;
  CancelledAt : Z;
  ObjectID : string;
  ObjectType : string;
  ActivityType : string;
  Username : string;
  UserDisplayName : string;
  Comment : string;
  Cancelled : bool
}.
End ActObjectTimeline.

Record GetObjectTimelineResp := {
  ObjectInfo : ActObjectInfo;
  Timeline : list ActObjectTimeline.t
}.

Record GetObjectTimelineDetailReq := {
  OldRevisionID : string;
  NewRevisionID : string
}.

Record ObjectTimelineDetail := {
  Title : string;
  Tags : list string;
  OriginalText : string
}.

Record GetObjectTimelineDetailResp := {
  OldRevision : ObjectTimelineDetail;
  NewRevision : ObjectTimelineDetail
}.

(** What the collaborating services return. *)
Record SimpleObjectInfo := {
  obj_Title : string;
  obj_ObjectType : string;
  obj_QuestionID : string;
  obj_AnswerID : string
}.

Record UserBasicInfo := { user_Username : string; user_DisplayName : string }.

Record GetCommentResp := { comment_ParsedText : string }.

Record SiteWriteResp := { RequiredTag : bool }.

End schema.

(** Modelled from the spec: the [constant] package is not among the source
    files; the object types are the strings the spec names. *)
Module constant.
Definition QuestionObjectType : string := "question".
Definition AnswerObjectType : string := "answer".
Definition TagObjectType : string := "tag".
Definition CommentObjectType : string := "comment".
End constant.

(** ** The activity timeline renderer ([activity.go]) *)

Module activity.
Import entity schema.

(** The collaborators of [ActivityService], one field per method the file
    calls. Each is outside the source file and is taken as a parameter;
    a Go [(value, err)] becomes a sum. [GetUserBasicInfoByID] returns
    [(info, exist, err)]: [inr None] is "no error, does not exist".
    The last four fields are the package-level table
    [config.ID2KeyMapping] (a Go map: a missing key reads as the empty
    string) and [json.Unmarshal] at the three payload types. *)
Record ActivityService := {
  GetObjectAllActivity : string -> bool -> error + list Activity.t;
  GetUserBasicInfoByID : string -> error + option UserBasicInfo;
  GetInfo : string -> error + SimpleObjectInfo;
  GetComment : string -> error + GetCommentResp;
  GetRevision : string -> error + Revision;
  ID2KeyMapping : gmap Z string;
  Unmarshal_QuestionWithTagsRevision : string -> error + QuestionWithTagsRevision;
  Unmarshal_Answer : string -> error + Answer;
  Unmarshal_Tag : string -> error + Tag.t
}.

(** A service call: it reads the log written so far, returns an error or
    a value, and the log extended by what it wrote. *)
Definition Act (A : Type) : Type := list LogEntry -> (error + A) * list LogEntry.

Definition ret {A} (a : A) : Act A := fun lg => (inr a, lg).

Definition bind {A B} (m : Act A) (k : A -> Act B) : Act B :=
  fun lg => match m lg with
            | (inl e, lg') => (inl e, lg')
            | (inr a, lg') => k a lg'
            end.

(** [v, err := call(); if err != nil { return nil, err }] *)
Definition try {A} (r : error + A) : Act A := fun lg => (r, lg).

Definition log_Error (msg : string) (e : option error) : Act unit :=
  fun lg => (inr tt, (lg ++ [mkLog msg e])%list).

Notation "x <- m ;; k" := (bind m (fun x => k))
  (at level 100, m at next level, right associativity).

Definition formatActivity (activityType : string) : bool * string :=
  if String.eqb activityType "voted_up" || String.eqb activityType "voted_down"
     || String.eqb activityType "accepted" then (true, "")
  else if String.eqb activityType "vote_up" then (false, "upvote")
  else if String.eqb activityType "vote_down" then (false, "downvote")
  else (false, activityType).

Section Service.
Context `{Consts}.
Variable svc : ActivityService.

(** [strings.Cut(config.ID2KeyMapping[act.ActivityType], ".")] *)
Definition activity_key (act : Activity.t) : string * string * bool :=
  Cut (default "" (ID2KeyMapping svc !! Activity.ActivityType act)) ".".

(** The item as built at the top of the loop body, before the label is
    formatted and before any lookup. *)
Definition new_item (act : Activity.t) : ActObjectTimeline.t :=
  let cancelled := Z.eqb (Activity.Cancelled act) ActivityCancelled in
  let '(objectType, activityType, _) := activity_key act in
  ActObjectTimeline.mk
    (Activity.ID act)
    (IntToString (Activity.RevisionID act))
    (Activity.CreatedAt act)
    (if cancelled then Activity.CancelledAt act else 0)
    (Activity.ObjectID act)
    objectType
    activityType
    "" "" ""
    cancelled.

(** The rest of the loop body for an item that is not hidden. *)
Definition fill_item (act : Activity.t) (item : ActObjectTimeline.t)
    (formattedActivityType : string) : Act ActObjectTimeline.t :=
  user <- try (GetUserBasicInfoByID svc (Activity.UserID act)) ;;
  let '(username, displayName) :=
    match user with
    | Some u => (user_Username u, user_DisplayName u)
    | None => ("", "")
    end in
  comment <-
    (if String.eqb (ActObjectTimeline.ObjectType item) constant.CommentObjectType then
       match GetComment svc (ActObjectTimeline.ObjectID item) with
       | inl err => _ <- log_Error "" (Some err) ;; ret ""
       | inr c => ret (comment_ParsedText c)
       end
     else ret "") ;;
  ret (ActObjectTimeline.mk
         (ActObjectTimeline.ActivityID item)
         (ActObjectTimeline.RevisionID item)
         (ActObjectTimeline.CreatedAt item)
         (ActObjectTimeline.CancelledAt item)
         (ActObjectTimeline.ObjectID item)
         (ActObjectTimeline.ObjectType item)
         formattedActivityType
         username displayName comment
         (ActObjectTimeline.Cancelled item)).

(** [for _, act := range activityList { ... }], with [timeline] the
    value of [resp.Timeline] on entry. *)
Fixpoint timeline_loop (activityList : list Activity.t)
    (timeline : list ActObjectTimeline.t) : Act (list ActObjectTimeline.t) :=
  match activityList with
  | [] => ret timeline
  | act :: rest =>
      let item := new_item act in
      let '(isHidden, formattedActivityType) :=
        formatActivity (ActObjectTimeline.ActivityType item) in
      if isHidden then timeline_loop rest timeline
      else
        item' <- fill_item act item formattedActivityType ;;
        timeline_loop rest (timeline ++ [item'])%list
  end.

Definition GetObjectTimeline (req : GetObjectTimelineReq) : Act GetObjectTimelineResp :=
  objInfo <- try (GetInfo svc (ObjectID req)) ;;
  activityList <- try (GetObjectAllActivity svc (ObjectID req) (ShowVote req)) ;;
  timeline <- timeline_loop activityList [] ;;
  ret {| ObjectInfo := {| info_Title := obj_Title objInfo;
                          info_ObjectType := obj_ObjectType objInfo;
                          info_QuestionID := obj_QuestionID objInfo;
                          info_AnswerID := obj_AnswerID objInfo |};
         Timeline := timeline |}.

(** [&schema.ObjectTimelineDetail{Tags: make([]string, 0)}] *)
Definition empty_detail : ObjectTimelineDetail :=
  {| Title := ""; Tags := []; OriginalText := "" |}.

Definition getOneObjectDetail (revisionID : string) : Act ObjectTimelineDetail :=
  revision <- try (GetRevision svc revisionID) ;;
  objInfo <- try (GetInfo svc (rev_ObjectID revision)) ;;
  if String.eqb (obj_ObjectType objInfo) constant.QuestionObjectType then
    match Unmarshal_QuestionWithTagsRevision svc (rev_Content revision) with
    | inl err => _ <- log_Error "revision parsing error %s" (Some err) ;; ret empty_detail
    | inr data =>
        ret {| Title := qrev_Title data;
               Tags := map rev_tag_SlugName (qrev_Tags data);
               OriginalText := qrev_OriginalText data |}
    end
  else if String.eqb (obj_ObjectType objInfo) constant.AnswerObjectType then
    match Unmarshal_Answer svc (rev_Content revision) with
    | inl err => _ <- log_Error "revision parsing error %s" (Some err) ;; ret empty_detail
    | inr data =>
        ret {| Title := obj_Title objInfo;
               Tags := [];
               OriginalText := answer_OriginalText data |}
    end
  else if String.eqb (obj_ObjectType objInfo) constant.TagObjectType then
    match Unmarshal_Tag svc (rev_Content revision) with
    | inl err => _ <- log_Error "revision parsing error %s" (Some err) ;; ret empty_detail
    | inr data =>
        ret {| Title := Tag.SlugName data;
               Tags := [];
               OriginalText := Tag.OriginalText data |}
    end
  else
    _ <- log_Error ("unknown object type " ++ obj_ObjectType objInfo) None ;;
    ret empty_detail.

Definition GetObjectTimelineDetail (req : GetObjectTimelineDetailReq)
    : Act GetObjectTimelineDetailResp :=
  old <- getOneObjectDetail (OldRevisionID req) ;;
  new <- getOneObjectDetail (NewRevisionID req) ;;
  ret {| OldRevision := old; NewRevision := new |}.

(** Vocabulary for the statements below: the label of a stored activity
    (the part of its key after the separator), whether the timeline
    hides it, and the label the timeline shows for it. *)
Definition activity_label (act : Activity.t) : string := (activity_key act).1.2.
Definition is_hidden (act : Activity.t) : bool := (formatActivity (activity_label act)).1.
Definition display_label (act : Activity.t) : string :=
  (formatActivity (activity_label act)).2.
Definition visible (act : Activity.t) : bool := negb (is_hidden act).


Definition revision_load_error (revisionID : string) (e : error) : Prop :=
  GetRevision svc revisionID = inl e \/
  exists revision, GetRevision svc revisionID = inr revision /\
                   GetInfo svc (rev_ObjectID revision) = inl e.

(** The entry the loop body appends for an activity it shows, when the
    user lookup of that activity returns no error, and what it writes to
    the log on the way. *)
Definition comment_text (act : Activity.t) : string :=
  if String.eqb (activity_key act).1.1 constant.CommentObjectType then
    match GetComment svc (Activity.ObjectID act) with
    | inl _ => ""
    | inr c => comment_ParsedText c
    end
  else "".

Definition comment_log (act : Activity.t) : list LogEntry :=
  if String.eqb (activity_key act).1.1 constant.CommentObjectType then
    match GetComment svc (Activity.ObjectID act) with
    | inl err => [mkLog "" (Some err)]
    | inr _ => []
    end
  else [].

Definition user_names (act : Activity.t) : string * string :=
  match GetUserBasicInfoByID svc (Activity.UserID act) with
  | inr (Some u) => (user_Username u, user_DisplayName u)
  | _ => ("", "")
  end.

Definition render (act : Activity.t) : ActObjectTimeline.t :=
  let cancelled := Z.eqb (Activity.Cancelled act) ActivityCancelled in
  ActObjectTimeline.mk
    (Activity.ID act)
    (IntToString (Activity.RevisionID act))
    (Activity.CreatedAt act)
    (if cancelled then Activity.CancelledAt act else 0)
    (Activity.ObjectID act)
    (activity_key act).1.1
    (display_label act)
    (user_names act).1 (user_names act).2
    (comment_text act)
    cancelled.

(** The error of the first activity, in list order, that the timeline
    shows and whose user lookup returns an error. *)
Fixpoint first_user_error (activityList : list Activity.t) : option error :=
  match activityList with
  | [] => None
  | act :: rest =>
      if is_hidden act then first_user_error rest
      else match GetUserBasicInfoByID svc (Activity.UserID act) with
           | inl e => Some e
           | inr _ => first_user_error rest
           end
  end.

(** The labels [formatActivity] hides or renames. *)
Definition raw_labels : list string :=
  ["voted_up"; "voted_down"; "accepted"; "vote_up"; "vote_down"].

End Service.
End activity.

(** ** The relational store behind the ORM session

    The tag repository talks to the store through an ORM session
    ([xorm.io/xorm] and [xorm.io/builder]), a library outside the
    repository. This module models the part of its documented behaviour the
    repository relies on, over a table held as the list of its rows:
    - [Where]/[In] conditions are conjoined;
    - a bean passed to [Find]/[Get] adds an equality condition for each of
      its non-zero fields; a [bool] field is skipped unless its column was
      named by [UseBool] or [MustCols], and a named column is used even when
      its value is the zero value;
    - [Update] assigns the bean's non-zero fields, under the same rule, to
      every row the conditions select, and is an error when the bean has
      nothing to assign;
    - [Asc]/[Desc]/[OrderBy] append sort keys; [Limit] keeps a window, a
      negative count or offset counting as zero;
    - a statement against a store that is down fails and changes nothing.
    Strings compare bytewise and [LIKE] is the case-sensitive SQL operator
    with [%] and [_] as wildcards. *)

Module xorm.
Import entity.

(** The columns of the [tag] table. *)
Inductive Col :=
| id | created_at | main_tag_id | main_tag_slug_name | slug_name
| display_name | original_text | question_count | status
| recommend | reserved | revision_id.

Definition all_cols : list Col :=
  [id; created_at; main_tag_id; main_tag_slug_name; slug_name;
   display_name; original_text; question_count; status;
   recommend; reserved; revision_id].

Definition col_index (c : Col) : nat :=
  match c with
  | id => 0 | created_at => 1 | main_tag_id => 2 | main_tag_slug_name => 3
  | slug_name => 4 | display_name => 5 | original_text => 6
  | question_count => 7 | status => 8 | recommend => 9 | reserved => 10
  | revision_id => 11
  end%nat.

Definition col_eqb (a b : Col) : bool := Nat.eqb (col_index a) (col_index b).

Definition col_mem (c : Col) (cs : list Col) : bool := existsb (col_eqb c) cs.

(** A column value. [VNum] is a numeric column that the Go struct holds
    as a decimal string (the identifiers). *)
Inductive Value :=
| VStr (s : string)
| VNum (s : string)
| VInt (z : Z)
| VBool (b : bool).

Definition col_value (c : Col) (x : Tag.t) : Value :=
  match c with
  | id => VNum (Tag.ID x)
  | created_at => VInt (Tag.CreatedAt x)
  | main_tag_id => VInt (Tag.MainTagID x)
  | main_tag_slug_name => VStr (Tag.MainTagSlugName x)
  | slug_name => VStr (Tag.SlugName x)
  | display_name => VStr (Tag.DisplayName x)
  | original_text => VStr (Tag.OriginalText x)
  | question_count => VInt (Tag.QuestionCount x)
  | status => VInt (Tag.Status x)
  | recommend => VBool (Tag.Recommend x)
  | reserved => VBool (Tag.Reserved x)
  | revision_id => VNum (Tag.RevisionID x)
  end.

(** Assignment of a value to a column; a value of the wrong kind for the
    column leaves the row as it is. *)
Definition set_col (c : Col) (v : Value) (x : Tag.t) : Tag.t :=
  match c, v with
  | id, VNum s => Tag.set_ID s x
  | created_at, VInt z => Tag.set_CreatedAt z x
  | main_tag_id, VInt z => Tag.set_MainTagID z x
  | main_tag_slug_name, VStr s => Tag.set_MainTagSlugName s x
  | slug_name, VStr s => Tag.set_SlugName s x
  | display_name, VStr s => Tag.set_DisplayName s x
  | original_text, VStr s => Tag.set_OriginalText s x
  | question_count, VInt z => Tag.set_QuestionCount z x
  | status, VInt z => Tag.set_Status z x
  | recommend, VBool b => Tag.set_Recommend b x
  | reserved, VBool b => Tag.set_Reserved b x
  | revision_id, VNum s => Tag.set_RevisionID s x
  | _, _ => x
  end.

Definition value_eqb (a b : Value) : bool :=
  match a, b with
  | VStr s, VStr s' => String.eqb s s'
  | VNum s, VNum s' => String.eqb s s'
  | VInt z, VInt z' => Z.eqb z z'
  | VBool x, VBool y => Bool.eqb x y
  | _, _ => false
  end.

Definition bool_compare (x y : bool) : comparison :=
  match x, y with
  | false, true => Lt
  | true, false => Gt
  | _, _ => Eq
  end.

(** Decimal strings without sign or leading zeros order as numbers when
    compared by length first. *)
Definition num_compare (s s' : string) : comparison :=
  match Nat.compare (String.length s) (String.length s') with
  | Eq => String.compare s s'
  | c => c
  end.

Definition value_compare (a b : Value) : comparison :=
  match a, b with
  | VStr s, VStr s' => String.compare s s'
  | VNum s, VNum s' => num_compare s s'
  | VInt z, VInt z' => Z.compare z z'
  | VBool x, VBool y => bool_compare x y
  | _, _ => Eq
  end.

(** *** LIKE *)

Definition percent : ascii := "%"%char.
Definition underscore : ascii := "_"%char.

(** [sql_like pattern s]: [%] matches any run of characters, [_] any one
    character, every other character itself. *)
Fixpoint sql_like (pattern : string) : string -> bool :=
  match pattern with
  | EmptyString => fun s => match s with EmptyString => true | _ => false end
  | String c p =>
      if Ascii.eqb c percent then
        fix any (s : string) : bool :=
          sql_like p s || match s with
                          | EmptyString => false
                          | String _ s' => any s'
                          end
      else if Ascii.eqb c underscore then
        fun s => match s with
                 | EmptyString => false
                 | String _ s' => sql_like p s'
                 end
      else
        fun s => match s with
                 | EmptyString => false
                 | String d s' => Ascii.eqb c d && sql_like p s'
                 end
  end.

Fixpoint last_char (s : string) : option ascii :=
  match s with
  | EmptyString => None
  | String c EmptyString => Some c
  | String _ s' => last_char s'
  end.

Definition first_char (s : string) : option ascii :=
  match s with
  | EmptyString => None
  | String c _ => Some c
  end.

Definition is_percent (o : option ascii) : bool :=
  match o with
  | Some c => Ascii.eqb c percent
  | None => false
  end.

(** The argument [builder.Like{col, v}] binds: [v] itself when it starts
    or ends with [%], otherwise [v] between two [%]. *)
Definition like_pattern (v : string) : string :=
  if is_percent (first_char v) || is_percent (last_char v) then v
  else "%" ++ v ++ "%".


Definition occurs_in (v s : string) : Prop := exists a b, s = a ++ v ++ b.

(** *** Conditions *)

Inductive Cond :=
| Eq_ (c : Col) (v : Value)             (* builder.Eq{c: v}, "c = ?" *)
| In_ (c : Col) (vs : list Value)       (* In(c, vs) *)
| LikeArg (c : Col) (pattern : string)  (* "c LIKE ?" with that argument *)
| Like (c : Col) (v : string)           (* builder.Like{c, v} *)
| Or (a b : Cond).                      (* builder.Or(a, b) *)

Fixpoint eval (k : Cond) (x : Tag.t) : bool :=
  match k with
  | Eq_ c v => value_eqb (col_value c x) v
  | In_ c vs => existsb (value_eqb (col_value c x)) vs
  | LikeArg c pattern =>
      match col_value c x with
      | VStr s | VNum s => sql_like pattern s
      | _ => false
      end
  | Like c v =>
      match col_value c x with
      | VStr s | VNum s => sql_like (like_pattern v) s
      | _ => false
      end
  | Or a b => eval a x || eval b x
  end.

(** *** Sessions *)

Inductive Dir := ASC | DESC.

Record Session := mkSession {
  conds : list Cond;
  orderBy : list (Col * Dir);
  limitN : option Z;
  start : Z;
  mustCols : list Col
}.

Definition NewSession : Session := mkSession [] [] None 0 [].

Definition Where (k : Cond) (s : Session) : Session :=
  mkSession (conds s ++ [k]) (orderBy s) (limitN s) (start s) (mustCols s).

Definition OrderBy (keys : list (Col * Dir)) (s : Session) : Session :=
  mkSession (conds s) (orderBy s ++ keys) (limitN s) (start s) (mustCols s).

Definition Asc (c : Col) : Session -> Session := OrderBy [(c, ASC)].
Definition Desc (c : Col) : Session -> Session := OrderBy [(c, DESC)].

Definition Limit (n : Z) (from : Z) (s : Session) : Session :=
  mkSession (conds s) (orderBy s) (Some n) from (mustCols s).

Definition MustCols (cs : list Col) (s : Session) : Session :=
  mkSession (conds s) (orderBy s) (limitN s) (start s) (mustCols s ++ cs).

(** [UseBool(cols...)] with at least one column is [MustCols(cols...)]. *)
Definition UseBool (cs : list Col) : Session -> Session := MustCols cs.

(** Whether the bean's value of a column takes part in a condition or an
    assignment. *)
Definition bean_uses (must : list Col) (c : Col) (v : Value) : bool :=
  col_mem c must ||
  match v with
  | VStr s | VNum s => negb (String.eqb s "")
  | VInt z => negb (Z.eqb z 0)
  | VBool _ => false
  end.

Definition bean_cols (must : list Col) (bean : Tag.t) : list Col :=
  List.filter (fun c => bean_uses must c (col_value c bean)) all_cols.

Definition bean_conds (must : list Col) (bean : option Tag.t) : list Cond :=
  match bean with
  | None => []
  | Some b => map (fun c => Eq_ c (col_value c b)) (bean_cols must b)
  end.

Definition selects (s : Session) (bean : option Tag.t) (x : Tag.t) : bool :=
  forallb (fun k => eval k x) (conds s ++ bean_conds (mustCols s) bean).

(** *** Ordering *)

Definition directed (d : Dir) (c : comparison) : comparison :=
  match d with ASC => c | DESC => CompOpp c end.

Fixpoint order_compare (keys : list (Col * Dir)) (a b : Tag.t) : comparison :=
  match keys with
  | [] => Eq
  | (c, d) :: keys' =>
      match directed d (value_compare (col_value c a) (col_value c b)) with
      | Eq => order_compare keys' a b
      | r => r
      end
  end.

Section Sort.
Variable cmp : Tag.t -> Tag.t -> comparison.

Fixpoint insert_row (x : Tag.t) (l : list Tag.t) : list Tag.t :=
  match l with
  | [] => [x]
  | y :: l' =>
      match cmp x y with
      | Gt => y :: insert_row x l'
      | _ => x :: l
      end
  end.

(** A stable sort: rows that compare equal keep their table order. *)
Fixpoint sort_rows (l : list Tag.t) : list Tag.t :=
  match l with
  | [] => []
  | x :: l' => insert_row x (sort_rows l')
  end.
End Sort.

Definition window (s : Session) (l : list Tag.t) : list Tag.t :=
  match limitN s with
  | None => l
  | Some n => firstn (Z.to_nat n) (skipn (Z.to_nat (start s)) l)
  end.

(** *** Statements *)

(** [data.DB]: the rows of the tag table, and the error every statement
    meets while the store is unreachable. *)
Record Engine := mkEngine { rows : list Tag.t; fault : option error }.

Definition selected (s : Session) (bean : option Tag.t) (db : Engine) : list Tag.t :=
  sort_rows (order_compare (orderBy s)) (List.filter (selects s bean) (rows db)).

Definition Find (s : Session) (bean : option Tag.t) (db : Engine)
    : error + list Tag.t :=
  match fault db with
  | Some e => inl e
  | None => inr (window s (selected s bean db))
  end.

Definition FindAndCount (s : Session) (bean : option Tag.t) (db : Engine)
    : error + (list Tag.t * Z) :=
  match fault db with
  | Some e => inl e
  | None =>
      inr (window s (selected s bean db),
           Z.of_nat (List.length (selected s bean db)))
  end.

(** [Get(bean)]: the first selected row, if there is one. *)
Definition Get (s : Session) (bean : Tag.t) (db : Engine)
    : error + option Tag.t :=
  match fault db with
  | Some e => inl e
  | None => inr (head (selected s (Some bean) db))
  end.

Definition assign (must : list Col) (bean : Tag.t) (x : Tag.t) : Tag.t :=
  fold_left (fun row c => set_col c (col_value c bean) row) (bean_cols must bean) x.

(** [Update(bean)]: the number of rows changed and the table after. *)
Definition Update (s : Session) (bean : Tag.t) (db : Engine)
    : error + (Z * Engine) :=
  match fault db with
  | Some e => inl e
  | None =>
      match bean_cols (mustCols s) bean with
      | [] => inl (Err "No content found to be updated")
      | _ =>
          inr (Z.of_nat (List.length (List.filter (selects s None) (rows db))),
               mkEngine
                 (map (fun x => if selects s None x
                                then assign (mustCols s) bean x else x)
                      (rows db))
                 (fault db))
      end
  end.

(** [Cols(cols...).Update(bean)] with at least one column named: the
    named columns, and only they, take the bean's values, zero or not. *)
Definition assign_cols (cols : list Col) (bean : Tag.t) (x : Tag.t) : Tag.t :=
  fold_left (fun row c => set_col c (col_value c bean) row) cols x.

Definition UpdateCols (cols : list Col) (s : Session) (bean : Tag.t) (db : Engine)
    : error + (Z * Engine) :=
  match fault db with
  | Some e => inl e
  | None =>
      inr (Z.of_nat (List.length (List.filter (selects s None) (rows db))),
           mkEngine
             (map (fun x => if selects s None x then assign_cols cols bean x else x)
                  (rows db))
             (fault db))
  end.

End xorm.

(** Modelled from the spec: [pager.Help] is not among the source files. It
    runs the session as a paged listing: rows [(page-1)*pageSize] up to
    [pageSize] further of the filtered, ordered result, with the bean's
    non-zero fields as equality predicates, and the number of all rows the
    filter selects as the total. *)
Module pager.
Import entity.

Definition Help (page pageSize : Z) (rowElement : Tag.t) (session : xorm.Session)
    (db : xorm.Engine) : error + (list Tag.t * Z) :=
  xorm.FindAndCount (xorm.Limit pageSize ((page - 1) * pageSize) session)
                    (Some rowElement) db.
End pager.

(** ** The tag repository (package [tag]) *)

Module tag.
Import entity schema xorm.

(** [tagRepo]: the store handle and the site-info service, whose
    [GetSiteWrite] answer is a parameter; with them, the process log the
    repository writes to. *)
Record tagRepo := mkRepo {
  data : Engine;
  GetSiteWrite : error + SiteWriteResp;
  logged : list LogEntry
}.

(** A repository method: it returns a value and the repository after. *)
Definition Repo (A : Type) : Type := tagRepo -> A * tagRepo.

Definition ret {A} (a : A) : Repo A := fun tr => (a, tr).

Definition bind {A B} (m : Repo A) (k : A -> Repo B) : Repo B :=
  fun tr => let '(a, tr') := m tr in k a tr'.

Notation "x <- m ;; k" := (bind m (fun x => k))
  (at level 100, m at next level, right associativity).

Notation "s |> f" := (f s) (at level 45, left associativity, only parsing).

Definition log_Error (msg : string) (e : error) : Repo unit :=
  fun tr => (tt, mkRepo (data tr) (GetSiteWrite tr)
                        (logged tr ++ [mkLog msg (Some e)])%list).

(** A statement that only reads the table. *)
Definition query {A} (stmt : Engine -> error + A) : Repo (error + A) :=
  fun tr => (stmt (data tr), tr).

(** A statement that may change the table. *)
Definition exec {A} (stmt : Engine -> error + (A * Engine)) : Repo (error + A) :=
  fun tr => match stmt (data tr) with
            | inl e => (inl e, tr)
            | inr (a, db') => (inr a, mkRepo db' (GetSiteWrite tr) (logged tr))
            end.

(** [errors.InternalServer(reason.DatabaseError).WithError(err).WithStack()] *)
Definition database_error (err : error) : error := InternalServer DatabaseError err.

(** [if err != nil { err = errors.InternalServer(...) }] around a value
    that keeps its initial content [init] when the statement failed. *)
Definition wrapped {A} (init : A) (r : error + A) : A * option error :=
  match r with
  | inl err => (init, Some (database_error err))
  | inr a => (a, None)
  end.

Definition tagRecommendStatus : Repo bool :=
  fun tr => match GetSiteWrite tr with
            | inl err =>
                (_ <- log_Error "siteInfoService.GetSiteWrite error" err ;; ret false) tr
            | inr tagconfig => ret (RequiredTag tagconfig) tr
            end.

(** [if !tr.tagRecommendStatus(ctx) { for _, tag := range tagList {
    tag.Recommend = false } }] *)
Definition maskRecommendList (tagList : list Tag.t) : Repo (list Tag.t) :=
  required <- tagRecommendStatus ;;
  ret (if negb required then map (Tag.set_Recommend false) tagList else tagList).

(** [if !tr.tagRecommendStatus(ctx) { tag.Recommend = false }] *)
Definition maskRecommend (tagInfo : Tag.t) : Repo Tag.t :=
  required <- tagRecommendStatus ;;
  ret (if negb required then Tag.set_Recommend false tagInfo else tagInfo).

Section Repository.
Context `{Consts}.

Definition available : Cond := Eq_ status (VInt TagStatusAvailable).

Definition recommend_reserved_id_desc : list (Col * Dir) :=
  [(recommend, DESC); (reserved, DESC); (id, DESC)].

Definition GetTagListByIDs (ids : list string) : Repo (list Tag.t * option error) :=
  let session := NewSession |> Where (In_ id (map VNum ids))
                            |> Where available
                            |> OrderBy recommend_reserved_id_desc in
  r <- query (Find session None) ;;
  let '(tagList, err) := wrapped [] r in
  tagList <- maskRecommendList tagList ;;
  ret (tagList, err).

Definition GetTagBySlugName (slugName : string)
    : Repo (option Tag.t * bool * option error) :=
  let session := NewSession |> Where (Eq_ slug_name (VStr slugName))
                            |> Where available in
  r <- query (Get session Tag.zero) ;;
  match r with
  | inl err => ret (None, false, Some (database_error err))
  | inr found =>
      tagInfo <- maskRecommend (default Tag.zero found) ;;
      ret (Some tagInfo, bool_decide (is_Some found), None)
  end.

Definition GetTagListByName (name : string) (limit : Z) (hasReserved : bool)
    : Repo (list Tag.t * option error) :=
  let cond := Tag.zero in
  let session := NewSession in
  let '(session, cond) :=
    if negb (String.eqb name "")
    then (session |> Where (LikeArg slug_name (name ++ "%")), cond)
    else (session, Tag.set_Recommend true cond) in
  let session := session |> Where available |> Limit limit 0 |> Asc slug_name in
  let '(session, cond) :=
    if negb hasReserved
    then (session |> UseBool [recommend; reserved], Tag.set_Reserved false cond)
    else (session |> UseBool [recommend], cond) in
  r <- query (Find (session |> OrderBy recommend_reserved_id_desc) (Some cond)) ;;
  let '(tagList, err) := wrapped [] r in
  tagList <- maskRecommendList tagList ;;
  ret (tagList, err).

Definition GetRecommendTagList : Repo (list Tag.t * option error) :=
  let cond := Tag.set_Recommend true Tag.zero in
  let session := NewSession |> Asc slug_name |> UseBool [recommend] in
  r <- query (Find session (Some cond)) ;;
  let '(tagList, err) := wrapped [] r in
  tagList <- maskRecommendList tagList ;;
  ret (tagList, err).

Definition GetReservedTagList : Repo (list Tag.t * option error) :=
  let cond := Tag.set_Reserved true Tag.zero in
  let session := NewSession |> Asc slug_name |> UseBool [reserved] in
  r <- query (Find session (Some cond)) ;;
  let '(tagList, err) := wrapped [] r in
  tagList <- maskRecommendList tagList ;;
  ret (tagList, err).

Definition GetTagListByNames (names : list string) : Repo (list Tag.t * option error) :=
  let session := NewSession |> Where (In_ slug_name (map VStr names))
                            |> UseBool [recommend; reserved] in
  r <- query (Find (session |> OrderBy recommend_reserved_id_desc) None) ;;
  let '(tagList, err) := wrapped [] r in
  tagList <- maskRecommendList tagList ;;
  ret (tagList, err).

Definition RemoveTag (tagID : string) : Repo (option error) :=
  let session := NewSession |> Where (Eq_ id (VNum tagID)) in
  r <- exec (Update session (Tag.set_Status TagStatusDeleted Tag.zero)) ;;
  ret (snd (wrapped 0 r)).

Definition UpdateTagQuestionCount (tagID : string) (questionCount : Z)
    : Repo (option error) :=
  let cond := Tag.set_QuestionCount questionCount Tag.zero in
  let session := NewSession |> Where (Eq_ id (VNum tagID))
                            |> MustCols [question_count] in
  r <- exec (Update session cond) ;;
  ret (snd (wrapped 0 r)).

Definition GetTagByID (tagID : string) : Repo (option Tag.t * bool * option error) :=
  let session := NewSession |> Where (Eq_ id (VNum tagID))
                            |> Where available in
  r <- query (Get session Tag.zero) ;;
  match r with
  | inl err => ret (None, false, Some (database_error err))
  | inr found =>
      tag <- maskRecommend (default Tag.zero found) ;;
      ret (Some tag, bool_decide (is_Some found), None)
  end.

Definition GetTagList (tag : Tag.t) : Repo (list Tag.t * option error) :=
  let session := NewSession |> Where available in
  r <- query (Find session (Some tag)) ;;
  let '(tagList, err) := wrapped [] r in
  tagList <- maskRecommendList tagList ;;
  ret (tagList, err).

(** [GetTagPage] receives [tag] by pointer and assigns to one of its
    fields: the first component of the result is the struct the caller
    holds after the call. *)
Definition GetTagPage (page pageSize : Z) (tag : Tag.t) (queryCond : string)
    : Repo (Tag.t * (list Tag.t * Z * option error)) :=
  let session := NewSession in
  let '(session, tag) :=
    if (0 <? Z.of_nat (String.length (Tag.SlugName tag)))%Z
    then (session |> Where (Or (Like slug_name (Tag.SlugName tag))
                               (Like display_name (Tag.SlugName tag))),
          Tag.set_SlugName "" tag)
    else (session, tag) in
  let session := session |> Where available
                         |> Where (Eq_ main_tag_id (VInt 0)) in
  let session :=
    if String.eqb queryCond "popular" then session |> Desc question_count
    else if String.eqb queryCond "name" then session |> Asc slug_name
    else if String.eqb queryCond "newest" then session |> Desc created_at
    else session in
  r <- query (pager.Help page pageSize tag session) ;;
  let '(tagList, total, err) := wrapped ([], 0) r in
  tagList <- maskRecommendList tagList ;;
  ret (tag, (tagList, total, err)).


Definition UpdateTagSynonym (tagSlugNameList : list string) (mainTagID : Z)
    (mainTagSlugName : string) : Repo (option error) :=
  let bean := Tag.set_MainTagSlugName mainTagSlugName
                (Tag.set_MainTagID mainTagID Tag.zero) in
  let session := NewSession |> Where (In_ slug_name (map VStr tagSlugNameList))
                            |> MustCols [main_tag_id; main_tag_slug_name] in
  r <- exec (Update session bean) ;;
  ret (snd (wrapped 0 r)).

(** The [switch attribute] of [UpdateTagsAttribute]: the column the
    attribute names and the bean with that field set, or nothing for any
    other attribute. *)
Definition attribute_bean (attribute : string) (value : bool) : option (Col * Tag.t) :=
  if String.eqb attribute "recommend" then Some (recommend, Tag.set_Recommend value Tag.zero)
  else if String.eqb attribute "reserved" then Some (reserved, Tag.set_Reserved value Tag.zero)
  else None.

Definition UpdateTagsAttribute (tags : list string) (attribute : string) (value : bool)
    : Repo (option error) :=
  match attribute_bean attribute value with
  | None => ret None
  | Some (col, bean) =>
      let session := NewSession |> Where (In_ slug_name (map VStr tags))
                                |> UseBool [col] in
      r <- exec (UpdateCols [col] session bean) ;;
      ret (snd (wrapped 0 r))
  end.

(** Vocabulary for the statements below. *)

(** What [tagRecommendStatus] answers for a repository, and a stored row
    as a read returns it under that answer. *)
Definition recommend_required (tr : tagRepo) : bool := (tagRecommendStatus tr).1.

Definition shown (tr : tagRepo) (x : Tag.t) : Tag.t :=
  if recommend_required tr then x else Tag.set_Recommend false x.

(** The nine tag-returning reads, with their arguments. *)
Inductive TagRead :=
| ReadByIDs (ids : list string)
| ReadBySlugName (slugName : string)
| ReadByName (name : string) (limit : Z) (hasReserved : bool)
| ReadRecommend
| ReadReserved
| ReadByNames (names : list string)
| ReadByID (tagID : string)
| ReadList (tag : Tag.t)
| ReadPage (page pageSize : Z) (tag : Tag.t) (queryCond : string).

(** Whether a read carries the [status = available] condition. *)
Definition available_only (op : TagRead) : bool :=
  match op with
  | ReadRecommend | ReadReserved | ReadByNames _ => false
  | _ => true
  end.

Definition struct_returned (o : option Tag.t) : list Tag.t :=
  match o with Some x => [x] | None => [] end.

(** The tag structs a read hands back, its error, and the repository
    it leaves. *)
Definition run_read (op : TagRead) (tr : tagRepo)
    : list Tag.t * option error * tagRepo :=
  match op with
  | ReadByIDs ids => let '(l, e, tr') := GetTagListByIDs ids tr in (l, e, tr')
  | ReadBySlugName n =>
      let '(o, _, e, tr') := GetTagBySlugName n tr in (struct_returned o, e, tr')
  | ReadByName n limit r =>
      let '(l, e, tr') := GetTagListByName n limit r tr in (l, e, tr')
  | ReadRecommend => let '(l, e, tr') := GetRecommendTagList tr in (l, e, tr')
  | ReadReserved => let '(l, e, tr') := GetReservedTagList tr in (l, e, tr')
  | ReadByNames ns => let '(l, e, tr') := GetTagListByNames ns tr in (l, e, tr')
  | ReadByID i =>
      let '(o, _, e, tr') := GetTagByID i tr in (struct_returned o, e, tr')
  | ReadList t => let '(l, e, tr') := GetTagList t tr in (l, e, tr')
  | ReadPage p ps t q =>
      let '(_, (l, _, e), tr') := GetTagPage p ps t q tr in (l, e, tr')
  end.

(** The stored rows a read found: its list, or the struct of a
    single-row read when it reports the row as existing. *)
Definition found (op : TagRead) (tr : tagRepo) : list Tag.t :=
  match op with
  | ReadBySlugName n =>
      let '(o, exists_, _, _) := GetTagBySlugName n tr in
      if exists_ then struct_returned o else []
  | ReadByID i =>
      let '(o, exists_, _, _) := GetTagByID i tr in
      if exists_ then struct_returned o else []
  | _ => (run_read op tr).1.1
  end.

(** The shape the listing methods share: run the statement, wrap its
    error, mask the rows. *)
Definition listing (stmt : Engine -> error + list Tag.t)
    : Repo (list Tag.t * option error) :=
  r <- query stmt ;;
  let '(tagList, err) := wrapped [] r in
  tagList <- maskRecommendList tagList ;;
  ret (tagList, err).

(** What [GetTagPage] leaves in the caller's filter, and the session
    it has built when it calls the pager. *)
Definition page_filter (tag : Tag.t) : Tag.t :=
  if (0 <? Z.of_nat (String.length (Tag.SlugName tag)))%Z
  then Tag.set_SlugName "" tag else tag.

Definition page_conds (tag : Tag.t) : list Cond :=
  ((if (0 <? Z.of_nat (String.length (Tag.SlugName tag)))%Z
    then [Or (Like slug_name (Tag.SlugName tag))
             (Like display_name (Tag.SlugName tag))]
    else []) ++ [available; Eq_ main_tag_id (VInt 0)])%list.

Definition page_order (queryCond : string) : list (Col * Dir) :=
  if String.eqb queryCond "popular" then [(question_count, DESC)]
  else if String.eqb queryCond "name" then [(slug_name, ASC)]
  else if String.eqb queryCond "newest" then [(created_at, DESC)]
  else [].

Definition page_session (page pageSize : Z) (tag : Tag.t) (queryCond : string)
    : Session :=
  mkSession (page_conds tag) (page_order queryCond) (Some pageSize)
            ((page - 1) * pageSize) [].

(** The shape the two single-row methods share. *)
Definition getting (session : Session) : Repo (option Tag.t * bool * option error) :=
  r <- query (Get session Tag.zero) ;;
  match r with
  | inl err => ret (None, false, Some (database_error err))
  | inr row =>
      tag <- maskRecommend (default Tag.zero row) ;;
      ret (Some tag, bool_decide (is_Some row), None)
  end.

End Repository.

(** [AddTagList]. The unique-id generator and the store's batch insert are
    outside the source file and are parameters: the generator answers
    [(id, err)] for a table name and moves to its next state; the insert
    either fails or gives the row count and the table after, under the
    constraints of the store. *)
Section Insertion.
Variable G : Type.
Variable GenUniqueIDStr : string -> G -> (string * option error) * G.
Variable Insert : list Tag.t -> Engine -> error + (Z * Engine).

(** Modelled from the spec: [entity.Tag.TableName] is not among the source
    files; the table is the "tag" table. *)
Definition TableName : string := "tag".

(** [for _, item := range tagList { item.ID, err = ...; if err != nil {
    return err }; item.RevisionID = "0" }] on the structs the caller
    holds: the structs after the loop, the error it stopped with, and the
    generator after. *)
Fixpoint assign_ids (tagList : list Tag.t) (g : G)
    : list Tag.t * option error * G :=
  match tagList with
  | [] => ([], None, g)
  | item :: rest =>
      let '((newID, err), g') := GenUniqueIDStr TableName g in
      let item := Tag.set_ID newID item in
      match err with
      | Some e => (item :: rest, Some e, g')
      | None =>
          let item := Tag.set_RevisionID "0" item in
          let '(rest', err', g'') := assign_ids rest g' in
          (item :: rest', err', g'')
      end
  end.

(** The result carries the caller's structs after the call next to the
    error. *)
Definition AddTagList (tagList : list Tag.t) (st : tagRepo * G)
    : (list Tag.t * option error) * (tagRepo * G) :=
  let '(tr, g) := st in
  let '(tagList, err, g) := assign_ids tagList g in
  match err with
  | Some e => ((tagList, Some e), (tr, g))
  | None =>
      let '(r, tr) := exec (Insert tagList) tr in
      ((tagList, snd (wrapped 0 r)), (tr, g))
  end.

End Insertion.
End tag.

(** ** Concrete services and tables

    Small instances on which the statements below are exercised. *)

Module sample.
Import entity schema.

Definition consts : Consts :=
  {| ActivityCancelled := 1; TagStatusAvailable := 1; TagStatusDeleted := 10 |}.

Definition keys : gmap Z string :=
  {[ 1 := "question.asked"; 2 := "question.voted_up";
     3 := "question.vote_up"; 4 := "comment.commented" ]}.

Definition act (i : string) (kind : Z) (user : string) : Activity.t :=
  Activity.mk i "10010000000000001" user kind 0 0 0 1700000000.

Definition question_info : SimpleObjectInfo :=
  {| obj_Title := "How to sort"; obj_ObjectType := "question";
     obj_QuestionID := "10010000000000001"; obj_AnswerID := "" |}.

Definition odd_info : SimpleObjectInfo :=
  {| obj_Title := "A badge"; obj_ObjectType := "badge";
     obj_QuestionID := ""; obj_AnswerID := "" |}.

(** Object and activity list load; every user lookup meets a storage
    error. *)
Definition svc_user_down : activity.ActivityService :=
  {| activity.GetObjectAllActivity := fun _ _ => inr [act "a1" 1 "u1"];
     activity.GetUserBasicInfoByID := fun _ => inl (Err "user store unreachable");
     activity.GetInfo := fun _ => inr question_info;
     activity.GetComment := fun _ => inl (Err "comment not found");
     activity.GetRevision := fun _ => inl (Err "revision not found");
     activity.ID2KeyMapping := keys;
     activity.Unmarshal_QuestionWithTagsRevision := fun _ => inl (Err "unexpected end of JSON input");
     activity.Unmarshal_Answer := fun _ => inl (Err "unexpected end of JSON input");
     activity.Unmarshal_Tag := fun _ => inl (Err "unexpected end of JSON input") |}.

(** Object, activity list and revisions load; no user exists, no comment
    resolves, no revision content decodes. *)
Definition svc_degraded : activity.ActivityService :=
  {| activity.GetObjectAllActivity := fun _ _ =>
       inr [act "a1" 1 "u1"; act "a2" 2 "u2"; act "a3" 3 "u3"; act "a4" 4 "u4"];
     activity.GetUserBasicInfoByID := fun _ => inr None;
     activity.GetInfo := fun i => if String.eqb i "b1" then inr odd_info else inr question_info;
     activity.GetComment := fun _ => inl (Err "comment not found");
     activity.GetRevision := fun r =>
       inr {| rev_ObjectID := (if String.eqb r "r2" then "b1" else "10010000000000001");
              rev_Content := "{" |};
     activity.ID2KeyMapping := keys;
     activity.Unmarshal_QuestionWithTagsRevision := fun _ => inl (Err "unexpected end of JSON input");
     activity.Unmarshal_Answer := fun _ => inl (Err "unexpected end of JSON input");
     activity.Unmarshal_Tag := fun _ => inl (Err "unexpected end of JSON input") |}.

Definition timeline_req : GetObjectTimelineReq :=
  {| ObjectID := "10010000000000001"; ShowVote := true |}.

Definition detail_req : GetObjectTimelineDetailReq :=
  {| OldRevisionID := "r1"; NewRevisionID := "r2" |}.

Definition row (i slug display : string) (st : Z) (rec res : bool) (main count : Z)
    : Tag.t :=
  Tag.mk i 1700000000 main "" slug display "" count st rec res "0".

Definition table : list Tag.t :=
  [ row "1" "go" "Go" 1 true false 0 5;
    row "2" "golang" "Golang" 1 false false 0 3;
    row "3" "rust" "Rust" 10 true true 0 2;
    row "4" "gopher" "Gopher" 1 false true 0 0;
    row "5" "c" "C" 1 true true 0 1;
    row "6" "ada" "Ada" 1 true false 0 1;
    row "7" "golangci" "GolangCI" 1 false false 2 1 ].

Definition repo (required : bool) : tag.tagRepo :=
  tag.mkRepo (xorm.mkEngine table None) (inr {| RequiredTag := required |}) [].

Definition repo_config_down : tag.tagRepo :=
  tag.mkRepo (xorm.mkEngine table None) (inl (Err "site info unreachable")) [].

(** A generator that counts up from its state and fails once it reaches
    [3], and an insert that appends the batch. *)
Definition counting_ids (table : string) (n : nat) : (string * option error) * nat :=
  if Nat.ltb n 3 then ((IntToString (Z.of_nat (100 + n)), None), S n)
  else ((EmptyString, Some (Err "id store unreachable")), n).

Definition append_rows (batch : list Tag.t) (db : xorm.Engine)
    : error + (Z * xorm.Engine) :=
  match xorm.fault db with
  | Some e => inl e
  | None => inr (Z.of_nat (List.length batch),
                 xorm.mkEngine (xorm.rows db ++ batch) None)
  end.

Definition new_tag (slug : string) : Tag.t :=
  Tag.mk "" 0 0 "" slug slug "" 0 1 false false "".

(** As [svc_degraded], with an activity whose type code [9] has no key. *)
Definition svc_unmapped : activity.ActivityService :=
  {| activity.GetObjectAllActivity := fun _ _ => inr [act "a1" 1 "u1"; act "a9" 9 "u9"];
     activity.GetUserBasicInfoByID := fun _ => inr None;
     activity.GetInfo := fun _ => inr question_info;
     activity.GetComment := fun _ => inl (Err "comment not found");
     activity.GetRevision := fun _ => inl (Err "revision not found");
     activity.ID2KeyMapping := keys;
     activity.Unmarshal_QuestionWithTagsRevision := fun _ => inl (Err "unexpected end of JSON input");
     activity.Unmarshal_Answer := fun _ => inl (Err "unexpected end of JSON input");
     activity.Unmarshal_Tag := fun _ => inl (Err "unexpected end of JSON input") |}.

Definition repo_down : tag.tagRepo :=
  tag.mkRepo (xorm.mkEngine table (Some (Err "connection refused")))
             (inl (Err "site info unreachable")) [].

End sample.


(** * Properties *)

(** ** The activity timeline *)

Section ActivityFacts.
Import entity schema activity.
Context `{Consts}.
Variable svc : ActivityService.

Lemma formatActivity_cases (s : string) :
  (s = "voted_up" \/ s = "voted_down" \/ s = "accepted") /\ formatActivity s = (true, "")
  \/ s = "vote_up" /\ formatActivity s = (false, "upvote")
  \/ s = "vote_down" /\ formatActivity s = (false, "downvote")
  \/ (s <> "voted_up" /\ s <> "voted_down" /\ s <> "accepted" /\
      s <> "vote_up" /\ s <> "vote_down") /\ formatActivity s = (false, s).
Proof.
  unfold formatActivity.
  destruct (String.eqb_spec s "voted_up") as [->|n1]; [left; auto|].
  destruct (String.eqb_spec s "voted_down") as [->|n2]; [left; auto|].
  destruct (String.eqb_spec s "accepted") as [->|n3]; [left; auto|].
  destruct (String.eqb_spec s "vote_up") as [->|n4]; [right; left; auto|].
  destruct (String.eqb_spec s "vote_down") as [->|n5]; [right; right; left; auto|].
  right; right; right. simpl. auto 10.
Qed.

Lemma new_item_fields (act : Activity.t) :
  ActObjectTimeline.ActivityID (new_item svc act) = Activity.ID act /\
  ActObjectTimeline.ActivityType (new_item svc act) = activity_label svc act /\
  ActObjectTimeline.ObjectID (new_item svc act) = Activity.ObjectID act /\
  ActObjectTimeline.ObjectType (new_item svc act) = (activity_key svc act).1.1.
Proof.
  unfold new_item, activity_label.
  destruct (activity_key svc act) as [[objectType activityType] found].
  repeat split.
Qed.

(** The loop body on an entry that is shown: it fails exactly when the
    user lookup returns an error, and otherwise yields the item with the
    formatted label, empty names when the user does not exist and an
    empty comment when the comment does not resolve. *)
Lemma fill_item_spec (act : Activity.t) (item : ActObjectTimeline.t)
    (label : string) (lg : list LogEntry) :
  match GetUserBasicInfoByID svc (Activity.UserID act) with
  | inl e => fill_item svc act item label lg = (inl e, lg)
  | inr user =>
      exists item' lg',
        fill_item svc act item label lg = (inr item', lg') /\
        ActObjectTimeline.ActivityID item' = ActObjectTimeline.ActivityID item /\
        ActObjectTimeline.ActivityType item' = label /\
        (user = None ->
         ActObjectTimeline.Username item' = "" /\
         ActObjectTimeline.UserDisplayName item' = "") /\
        (forall e,
            ActObjectTimeline.ObjectType item = constant.CommentObjectType ->
            GetComment svc (ActObjectTimeline.ObjectID item) = inl e ->
            ActObjectTimeline.Comment item' = "" /\
            lg' = (lg ++ [mkLog "" (Some e)])%list)
  end.
Proof.
  unfold fill_item, bind, try.
  destruct (GetUserBasicInfoByID svc (Activity.UserID act)) as [e|user]; [reflexivity|].
  destruct (String.eqb_spec (ActObjectTimeline.ObjectType item) constant.CommentObjectType)
    as [Hc|Hc];
    [destruct (GetComment svc (ActObjectTimeline.ObjectID item)) as [e|c] eqn:Hg|];
    destruct user as [u|]; simpl; eexists _, _;
    (split; [reflexivity|]); simpl; repeat split;
    try discriminate; try congruence; try contradiction.
Qed.

Lemma timeline_loop_cons (act : Activity.t) (rest : list Activity.t)
    (timeline : list ActObjectTimeline.t) :
  timeline_loop svc (act :: rest) timeline =
  if is_hidden svc act then timeline_loop svc rest timeline
  else bind (fill_item svc act (new_item svc act) (display_label svc act))
            (fun item' => timeline_loop svc rest (timeline ++ [item'])%list).
Proof.
  simpl. unfold is_hidden, display_label.
  destruct (new_item_fields act) as (_ & -> & _).
  destruct (formatActivity (activity_label svc act)) as [hidden label].
  reflexivity.
Qed.

(** What a successful run of the loop has appended. *)
Lemma timeline_loop_result (activityList : list Activity.t) :
  forall timeline lg out lg',
    timeline_loop svc activityList timeline lg = (inr out, lg') ->
    map ActObjectTimeline.ActivityID out =
      (map ActObjectTimeline.ActivityID timeline ++
       map Activity.ID (List.filter (visible svc) activityList))%list /\
    map ActObjectTimeline.ActivityType out =
      (map ActObjectTimeline.ActivityType timeline ++
       map (display_label svc) (List.filter (visible svc) activityList))%list.
Proof.
  induction activityList as [|act rest IH]; intros timeline lg out lg' Hrun.
  - simpl in Hrun. injection Hrun as <- <-. simpl. rewrite !app_nil_r. auto.
  - rewrite timeline_loop_cons in Hrun.
    assert (Hv : visible svc act = negb (is_hidden svc act)) by reflexivity.
    simpl. rewrite Hv.
    destruct (is_hidden svc act) eqn:Hh; simpl.
    + eapply IH; eauto.
    + unfold bind in Hrun.
      pose proof (fill_item_spec act (new_item svc act) (display_label svc act) lg) as Hf.
      destruct (GetUserBasicInfoByID svc (Activity.UserID act)) as [e|user].
      * rewrite Hf in Hrun. discriminate.
      * destruct Hf as (item' & lg1 & Hf & Hid & Hty & _). rewrite Hf in Hrun.
        apply IH in Hrun as [H1 H2].
        rewrite H1, H2, !map_app. simpl. rewrite Hid, Hty.
        destruct (new_item_fields act) as (-> & _).
        rewrite <- !app_assoc. auto.
Qed.



Local Ltac known_type Hty :=
  let Hall := fresh "Hall" in
  intros Hall; rewrite List.Forall_forall in Hall; exfalso;
  refine (Hall _ _ Hty); simpl; tauto.

Local Ltac other_types :=
  unfold constant.QuestionObjectType, constant.AnswerObjectType,
    constant.TagObjectType in *;
  repeat split; intros; try congruence; split; congruence.

(** The revision detail fails only when the revision or its object does
    not load; a payload that does not decode and an unknown object type
    give the empty detail. *)
Lemma getOneObjectDetail_spec (revisionID : string) (lg : list LogEntry) :
  match GetRevision svc revisionID with
  | inl e => getOneObjectDetail svc revisionID lg = (inl e, lg)
  | inr revision =>
      match GetInfo svc (rev_ObjectID revision) with
      | inl e => getOneObjectDetail svc revisionID lg = (inl e, lg)
      | inr objInfo =>
          exists detail lg',
            getOneObjectDetail svc revisionID lg = (inr detail, lg') /\
            (Forall (fun t => obj_ObjectType objInfo <> t)
                    [constant.QuestionObjectType; constant.AnswerObjectType;
                     constant.TagObjectType] ->
             detail = empty_detail /\
             lg' = (lg ++ [mkLog ("unknown object type " ++ obj_ObjectType objInfo)
                                 None])%list) /\
            (forall e,
                obj_ObjectType objInfo = constant.QuestionObjectType ->
                Unmarshal_QuestionWithTagsRevision svc (rev_Content revision) = inl e ->
                detail = empty_detail /\
                lg' = (lg ++ [mkLog "revision parsing error %s" (Some e)])%list) /\
            (forall e,
                obj_ObjectType objInfo = constant.AnswerObjectType ->
                Unmarshal_Answer svc (rev_Content revision) = inl e ->
                detail = empty_detail /\
                lg' = (lg ++ [mkLog "revision parsing error %s" (Some e)])%list) /\
            (forall e,
                obj_ObjectType objInfo = constant.TagObjectType ->
                Unmarshal_Tag svc (rev_Content revision) = inl e ->
                detail = empty_detail /\
                lg' = (lg ++ [mkLog "revision parsing error %s" (Some e)])%list)
      end
  end.
Proof.
  unfold getOneObjectDetail, bind, try.
  destruct (GetRevision svc revisionID) as [e|revision]; [reflexivity|].
  destruct (GetInfo svc (rev_ObjectID revision)) as [e|objInfo]; [reflexivity|].
  destruct (String.eqb_spec (obj_ObjectType objInfo) constant.QuestionObjectType) as [Hq|Hq].
  { destruct (Unmarshal_QuestionWithTagsRevision svc (rev_Content revision)) eqn:Hd;
      simpl; eexists _, _; (split; [reflexivity|]);
      (split; [known_type Hq | other_types]). }
  destruct (String.eqb_spec (obj_ObjectType objInfo) constant.AnswerObjectType) as [Ha|Ha].
  { destruct (Unmarshal_Answer svc (rev_Content revision)) eqn:Hd;
      simpl; eexists _, _; (split; [reflexivity|]);
      (split; [known_type Ha | other_types]). }
  destruct (String.eqb_spec (obj_ObjectType objInfo) constant.TagObjectType) as [Ht|Ht].
  { destruct (Unmarshal_Tag svc (rev_Content revision)) eqn:Hd;
      simpl; eexists _, _; (split; [reflexivity|]);
      (split; [known_type Ht | other_types]). }
  simpl. eexists _, _. split; [reflexivity|].
  split; [auto | other_types].
Qed.



(** C3. The label mapping [formatActivity] is defined on every string:
    "voted_up", "voted_down" and "accepted" are hidden, "vote_up" becomes
    "upvote", "vote_down" becomes "downvote", and every other label is
    returned as it is and not hidden. A timeline that is returned holds,
    in order, exactly the stored activities whose label is not hidden,
    each under its mapped label. *)
Theorem activity_label_mapping :
  (forall s, s = "voted_up" \/ s = "voted_down" \/ s = "accepted" ->
             formatActivity s = (true, "")) /\
  formatActivity "vote_up" = (false, "upvote") /\
  formatActivity "vote_down" = (false, "downvote") /\
  (forall s, s <> "voted_up" -> s <> "voted_down" -> s <> "accepted" ->
             s <> "vote_up" -> s <> "vote_down" ->
             formatActivity s = (false, s)) /\
  (forall act,
      is_hidden svc act = true <->
      activity_label svc act = "voted_up" \/ activity_label svc act = "voted_down" \/
      activity_label svc act = "accepted") /\
  (forall req lg resp lg',
      GetObjectTimeline svc req lg = (inr resp, lg') ->
      exists activityList,
        GetObjectAllActivity svc (ObjectID req) (ShowVote req) = inr activityList /\
        map ActObjectTimeline.ActivityID (Timeline resp) =
          map Activity.ID (List.filter (visible svc) activityList) /\
        map ActObjectTimeline.ActivityType (Timeline resp) =
          map (display_label svc) (List.filter (visible svc) activityList)).
Proof.
  split; [|split; [reflexivity|split; [reflexivity|split; [|split]]]].
  - intros s [->|[->| ->]]; reflexivity.
  - intros s n1 n2 n3 n4 n5.
    destruct (formatActivity_cases s) as [[Hs _]|[[Hs _]|[[Hs _]|[_ Hf]]]];
      try contradiction; [tauto | exact Hf].
  - intros act. unfold is_hidden.
    destruct (formatActivity_cases (activity_label svc act))
      as [[Hs ->]|[[Hs ->]|[[Hs ->]|[Hs ->]]]]; simpl.
    + tauto.
    + rewrite Hs. split; [discriminate|]. intros [?|[?|?]]; discriminate.
    + rewrite Hs. split; [discriminate|]. intros [?|[?|?]]; discriminate.
    + split; [discriminate|]. tauto.
  - intros req lg resp lg' Hrun.
    unfold GetObjectTimeline, bind, try in Hrun.
    destruct (GetInfo svc (ObjectID req)) as [e|objInfo]; [discriminate|].
    destruct (GetObjectAllActivity svc (ObjectID req) (ShowVote req))
      as [e|activityList]; [discriminate|].
    destruct (timeline_loop svc activityList [] lg) as [[e|out] lg1] eqn:Hloop;
      [discriminate|].
    injection Hrun as <- <-. exists activityList. split; [reflexivity|].
    apply timeline_loop_result in Hloop. exact Hloop.
Qed.


End ActivityFacts.

Section ActivityExamples.
Import entity schema activity sample.

(** On the sample service the stored activities are asked, voted_up,
    vote_up and commented: the second is dropped, the third relabelled. *)
Lemma activity_label_mapping_witness :
  exists resp lg',
    GetObjectTimeline (H := consts) svc_degraded timeline_req [] = (inr resp, lg') /\
    map ActObjectTimeline.ActivityID (Timeline resp) = ["a1"; "a3"; "a4"] /\
    map ActObjectTimeline.ActivityType (Timeline resp) = ["asked"; "upvote"; "commented"].
Proof.
  destruct (GetObjectTimeline (H := consts) svc_degraded timeline_req [])
    as [[e|resp] lg'] eqn:Hrun; [vm_compute in Hrun; discriminate|].
  exists resp, lg'. split; [reflexivity|].
  destruct (activity_label_mapping (H := consts) svc_degraded)
    as (_ & _ & _ & _ & _ & Htimeline).
  destruct (Htimeline timeline_req [] resp lg' Hrun) as (activityList & Hacts & Hid & Hty).
  simpl in Hacts. injection Hacts as <-.
  rewrite Hid, Hty. split; vm_compute; reflexivity.
Defined.



End ActivityExamples.

(** ** The store *)

Section StoreFacts.
Import entity xorm.

(** *** LIKE on patterns without wildcards *)






Lemma prefix_split (p s : string) :
  String.prefix p s = true <-> exists b, s = p ++ b.
Proof.
  revert s. induction p as [|c p IH]; intros s.
  - split; [intros _; exists s; reflexivity|]. destruct s; reflexivity.
  - destruct s as [|d s]; simpl.
    + split; [discriminate|]. intros [b Hb]. discriminate.
    + destruct (ascii_dec c d) as [->|Hne].
      * rewrite IH. split; intros [b Hb]; exists b.
        -- subst s. reflexivity.
        -- simpl in Hb. injection Hb as ->. reflexivity.
      * split; [discriminate|]. intros [b Hb]. simpl in Hb.
        injection Hb as Hcd _. exfalso. apply Hne. first [exact Hcd | exact (eq_sym Hcd)].
Qed.




(** *** Sorting and windows *)

Section Sorting.
Variable cmp : Tag.t -> Tag.t -> comparison.

Lemma insert_row_In (x y : Tag.t) (l : list Tag.t) :
  In y (insert_row cmp x l) <-> y = x \/ In y l.
Proof.
  induction l as [|z l IH]; simpl.
  - intuition.
  - destruct (cmp x z); simpl; rewrite ?IH; intuition.
Qed.

Lemma sort_rows_In (y : Tag.t) (l : list Tag.t) :
  In y (sort_rows cmp l) <-> In y l.
Proof.
  induction l as [|x l IH]; simpl; [tauto|].
  rewrite insert_row_In, IH. intuition.
Qed.

Hypothesis cmp_total : forall x y, cmp x y = Gt -> cmp y x <> Gt.

Lemma insert_row_Sorted (x : Tag.t) (l : list Tag.t) :
  Sorted (fun a b => cmp a b <> Gt) l ->
  Sorted (fun a b => cmp a b <> Gt) (insert_row cmp x l).
Proof.
  induction l as [|z l IH]; intros Hs; simpl.
  - repeat constructor.
  - destruct (cmp x z) eqn:Hc.
    + constructor; [exact Hs|]. constructor. congruence.
    + constructor; [exact Hs|]. constructor. congruence.
    + apply Sorted_inv in Hs as [Hs Hhd].
      constructor; [exact (IH Hs)|].
      destruct l as [|w l]; simpl.
      * constructor. apply cmp_total. exact Hc.
      * destruct (cmp x w); constructor;
          solve [apply cmp_total; exact Hc | inversion Hhd; assumption].
Qed.

Lemma sort_rows_Sorted (l : list Tag.t) :
  Sorted (fun a b => cmp a b <> Gt) (sort_rows cmp l).
Proof.
  induction l as [|x l IH]; simpl; [constructor|].
  apply insert_row_Sorted. exact IH.
Qed.
End Sorting.

Lemma value_compare_antisym (a b : Value) :
  value_compare b a = CompOpp (value_compare a b).
Proof.
  destruct a as [s|s|z|x], b as [s'|s'|z'|y]; simpl; try reflexivity.
  - apply String.compare_antisym.
  - unfold num_compare. rewrite (Nat.compare_antisym (String.length s')).
    destruct (String.length s' ?= String.length s)%nat; simpl; try reflexivity.
    apply String.compare_antisym.
  - apply Z.compare_antisym.
  - destruct x, y; reflexivity.
Qed.

Lemma order_compare_antisym (keys : list (Col * Dir)) (a b : Tag.t) :
  order_compare keys b a = CompOpp (order_compare keys a b).
Proof.
  induction keys as [|[c d] keys IH]; simpl; [reflexivity|].
  rewrite (value_compare_antisym (col_value c a) (col_value c b)).
  destruct d, (value_compare (col_value c a) (col_value c b)); simpl;
    try reflexivity; exact IH.
Qed.

Lemma order_compare_total (keys : list (Col * Dir)) (a b : Tag.t) :
  order_compare keys a b = Gt -> order_compare keys b a <> Gt.
Proof.
  intros Hgt. rewrite order_compare_antisym, Hgt. discriminate.
Qed.

(** Rows ordered by keys that start with [slug_name ASC] ascend by slug
    name. *)
Lemma order_compare_slug_first (keys : list (Col * Dir)) (a b : Tag.t) :
  order_compare ((slug_name, ASC) :: keys) a b <> Gt ->
  String.leb (Tag.SlugName a) (Tag.SlugName b) = true.
Proof.
  simpl. unfold String.leb.
  destruct (String.compare (Tag.SlugName a) (Tag.SlugName b)); congruence.
Qed.

Lemma Sorted_weaken {A} (R R' : A -> A -> Prop) (l : list A) :
  (forall a b, R a b -> R' a b) -> Sorted R l -> Sorted R' l.
Proof.
  intros Himp. induction 1 as [|a l Hs IH Hhd]; constructor; auto.
  destruct Hhd; constructor; auto.
Qed.

Lemma Sorted_skipn {A} (R : A -> A -> Prop) (n : nat) (l : list A) :
  Sorted R l -> Sorted R (skipn n l).
Proof.
  revert l. induction n as [|n IH]; intros l Hs; [exact Hs|].
  destruct l as [|a l]; [constructor|].
  simpl. apply IH. apply Sorted_inv in Hs. tauto.
Qed.

Lemma Sorted_firstn {A} (R : A -> A -> Prop) (n : nat) (l : list A) :
  Sorted R l -> Sorted R (firstn n l).
Proof.
  revert l. induction n as [|n IH]; intros l Hs; [constructor|].
  destruct l as [|a l]; [constructor|].
  apply Sorted_inv in Hs as [Hs Hhd]. simpl. constructor; [exact (IH _ Hs)|].
  destruct Hhd as [|b l Hab]; [destruct n; constructor|].
  destruct n; constructor. exact Hab.
Qed.

Lemma Sorted_map {A B} (R : B -> B -> Prop) (f : A -> B) (l : list A) :
  Sorted (fun a b => R (f a) (f b)) l -> Sorted R (map f l).
Proof.
  induction 1 as [|a l Hs IH Hhd]; simpl; constructor; auto.
  destruct Hhd; simpl; constructor; auto.
Qed.

Lemma In_firstn {A} (n : nat) (l : list A) (y : A) : In y (firstn n l) -> In y l.
Proof.
  revert l. induction n as [|n IH]; intros [|a l]; simpl; try tauto.
  intros [->|Hin]; auto.
Qed.

Lemma In_skipn {A} (n : nat) (l : list A) (y : A) : In y (skipn n l) -> In y l.
Proof.
  revert l. induction n as [|n IH]; intros [|a l]; simpl; try tauto. auto.
Qed.

Lemma window_In (s : Session) (l : list Tag.t) (y : Tag.t) :
  In y (window s l) -> In y l.
Proof.
  unfold window. destruct (limitN s) as [n|]; [|auto].
  intros Hin. apply In_firstn, In_skipn in Hin. exact Hin.
Qed.

Lemma window_Sorted (R : Tag.t -> Tag.t -> Prop) (s : Session) (l : list Tag.t) :
  Sorted R l -> Sorted R (window s l).
Proof.
  unfold window. destruct (limitN s); auto using Sorted_firstn, Sorted_skipn.
Qed.

Lemma selected_In (s : Session) (bean : option Tag.t) (db : Engine) (y : Tag.t) :
  In y (selected s bean db) <-> In y (rows db) /\ selects s bean y = true.
Proof. unfold selected. rewrite sort_rows_In. apply List.filter_In. Qed.

(** A row a statement returns is a row of the table that meets every
    condition of the session. *)
Lemma selects_conds (s : Session) (bean : option Tag.t) (y : Tag.t) :
  selects s bean y = true ->
  (forall k, In k (conds s) -> eval k y = true) /\
  (forall k, In k (bean_conds (mustCols s) bean) -> eval k y = true).
Proof.
  unfold selects. rewrite forallb_app, andb_true_iff, !List.forallb_forall. auto.
Qed.

End StoreFacts.

(** ** The tag repository *)

Section TagFacts.
Import entity schema xorm tag.
Context `{Consts}.

Lemma tagRecommendStatus_frame (tr : tagRepo) :
  data (tagRecommendStatus tr).2 = data tr /\
  GetSiteWrite (tagRecommendStatus tr).2 = GetSiteWrite tr.
Proof.
  unfold tagRecommendStatus. destruct (GetSiteWrite tr) eqn:Hs; simpl; auto.
Qed.

Lemma shown_fields (tr : tagRepo) (x : Tag.t) :
  Tag.ID (shown tr x) = Tag.ID x /\
  Tag.SlugName (shown tr x) = Tag.SlugName x /\
  Tag.DisplayName (shown tr x) = Tag.DisplayName x /\
  Tag.MainTagID (shown tr x) = Tag.MainTagID x /\
  Tag.Status (shown tr x) = Tag.Status x /\
  Tag.Reserved (shown tr x) = Tag.Reserved x /\
  Tag.Recommend (shown tr x) = recommend_required tr && Tag.Recommend x.
Proof.
  unfold shown. destruct (recommend_required tr); simpl; auto 10.
Qed.

Lemma listing_run (stmt : Engine -> error + list Tag.t) (tr : tagRepo) :
  listing stmt tr =
  (map (shown tr) (wrapped [] (stmt (data tr))).1,
   (wrapped [] (stmt (data tr))).2,
   (tagRecommendStatus tr).2).
Proof.
  unfold listing, bind, query, maskRecommendList, bind, ret, shown, recommend_required.
  destruct (wrapped [] (stmt (data tr))) as [tagList err]. simpl.
  destruct (tagRecommendStatus tr) as [required tr']. simpl.
  destruct required; simpl; [rewrite List.map_id|]; reflexivity.
Qed.

Lemma getting_run (s : Session) (tr : tagRepo) :
  getting s tr =
  match Get s Tag.zero (data tr) with
  | inl e => (None, false, Some (database_error e), tr)
  | inr row => (Some (shown tr (default Tag.zero row)), bool_decide (is_Some row),
                None, (tagRecommendStatus tr).2)
  end.
Proof.
  unfold getting, bind, query, maskRecommend, bind, ret, shown, recommend_required.
  destruct (Get s Tag.zero (data tr)) as [e|row]; [reflexivity|].
  destruct (tagRecommendStatus tr) as [required tr']. simpl.
  destruct required; reflexivity.
Qed.

Lemma Find_error (s : Session) (bean : option Tag.t) (db : Engine) :
  (wrapped [] (Find s bean db)).2 = database_error <$> fault db.
Proof. unfold Find. destruct (fault db); reflexivity. Qed.

Lemma Find_rows (s : Session) (bean : option Tag.t) (db : Engine) :
  (wrapped [] (Find s bean db)).1 =
  match fault db with
  | Some _ => []
  | None => window s (selected s bean db)
  end.
Proof. unfold Find. destruct (fault db); reflexivity. Qed.

(** A row a listing returns is a stored row that the session selects,
    as reads show it. *)
Lemma listing_In (s : Session) (bean : option Tag.t) (tr : tagRepo) (r : Tag.t) :
  In r (listing (Find s bean) tr).1.1 ->
  exists x, In x (rows (data tr)) /\ r = shown tr x /\ selects s bean x = true.
Proof.
  rewrite listing_run. simpl. rewrite Find_rows, List.in_map_iff.
  intros (x & <- & Hin). destruct (fault (data tr)); [contradiction|].
  apply window_In, selected_In in Hin as [Hin Hsel]. eauto.
Qed.

Lemma Get_found (s : Session) (db : Engine) (x : Tag.t) :
  Get s Tag.zero db = inr (Some x) ->
  In x (rows db) /\ selects s (Some Tag.zero) x = true.
Proof.
  unfold Get. destruct (fault db); [discriminate|]. intros Hget.
  injection Hget as Hhead. apply selected_In.
  destruct (selected s (Some Tag.zero) db); [discriminate|].
  injection Hhead as ->. left. reflexivity.
Qed.

Lemma triple_eta {A B C} (x : A * B * C) : (let '(a, b, c) := x in (a, b, c)) = x.
Proof. destruct x as [[a b] c]. reflexivity. Qed.

(** [GetTagPage] is the listing over [page_session] and [page_filter],
    together with the count and the filter it hands back. *)
Lemma GetTagPage_run (page pageSize : Z) (tag : Tag.t) (queryCond : string)
    (tr : tagRepo) :
  GetTagPage page pageSize tag queryCond tr =
  let '(l, e, tr') :=
    listing (Find (page_session page pageSize tag queryCond)
                  (Some (page_filter tag))) tr in
  (page_filter tag,
   (l,
    (wrapped ([], 0)
       (FindAndCount (page_session page pageSize tag queryCond)
                     (Some (page_filter tag)) (data tr))).1.2,
    e),
   tr').
Proof.
  unfold GetTagPage, page_session, page_conds, page_order, page_filter.
  destruct (0 <? Z.of_nat (String.length (Tag.SlugName tag)))%Z,
           (String.eqb queryCond "popular"), (String.eqb queryCond "name"),
           (String.eqb queryCond "newest");
    unfold listing, bind, query, pager.Help, FindAndCount, Find; simpl;
    destruct (fault (data tr)); simpl;
    destruct (maskRecommendList _ tr) as [l tr']; reflexivity.
Qed.

(** Every read is a listing over a session and a bean, or a single-row
    fetch over a session; the sessions of the reads that are restricted
    to available rows carry that condition. *)
Lemma run_read_shape (op : TagRead) :
  (exists s bean,
      (available_only op = true -> In available (conds s)) /\
      forall tr, run_read op tr = listing (Find s bean) tr /\
                 found op tr = (listing (Find s bean) tr).1.1)
  \/
  (exists s,
      In available (conds s) /\
      forall tr,
        run_read op tr = (let '(o, _, e, tr') := getting s tr in
                          (struct_returned o, e, tr')) /\
        found op tr = (let '(o, exists_, _, _) := getting s tr in
                       if exists_ then struct_returned o else [])).
Proof.
  destruct op as [ids|slugName|name limit hasReserved| | |names|tagID|tag
                  |page pageSize tag queryCond].
  - left. eexists _, _. split; [intros _|intros tr; split].
    2,3: unfold found, run_read; rewrite triple_eta; reflexivity.
    simpl. tauto.
  - right. eexists. split; [|intros tr; split; reflexivity]. simpl. tauto.
  - left. unfold found, run_read, GetTagListByName.
    destruct (negb (String.eqb name "")), (negb hasReserved);
      (eexists _, _; split; [intros _|intros tr; split]);
      try (rewrite triple_eta; reflexivity);
      simpl; tauto.
  - left. eexists _, _. split; [discriminate|intros tr; split].
    all: unfold found, run_read; rewrite triple_eta; reflexivity.
  - left. eexists _, _. split; [discriminate|intros tr; split].
    all: unfold found, run_read; rewrite triple_eta; reflexivity.
  - left. eexists _, _. split; [discriminate|intros tr; split].
    all: unfold found, run_read; rewrite triple_eta; reflexivity.
  - right. eexists. split; [|intros tr; split; reflexivity]. simpl. tauto.
  - left. eexists _, _. split; [intros _|intros tr; split].
    2,3: unfold found, run_read; rewrite triple_eta; reflexivity.
    simpl. tauto.
  - left. exists (page_session page pageSize tag queryCond), (Some (page_filter tag)).
    split; [intros _|intros tr].
    + unfold page_session, page_conds. simpl. rewrite List.in_app_iff. simpl. tauto.
    + unfold found, run_read. rewrite (GetTagPage_run page pageSize tag queryCond tr).
      destruct (listing _ tr) as [[l e] tr']. split; reflexivity.
Qed.

Lemma Get_error (s : Session) (db : Engine) (e : error) :
  Get s Tag.zero db = inl e -> fault db = Some e.
Proof. unfold Get. destruct (fault db); congruence. Qed.

Lemma Get_ok (s : Session) (db : Engine) (row : option Tag.t) :
  Get s Tag.zero db = inr row -> fault db = None.
Proof. unfold Get. destruct (fault db); congruence. Qed.

(** A read leaves the table and the site configuration as they were. *)
Lemma run_read_frame (op : TagRead) (tr : tagRepo) :
  data (run_read op tr).2 = data tr /\
  GetSiteWrite (run_read op tr).2 = GetSiteWrite tr.
Proof.
  destruct (run_read_shape op) as [(s & bean & _ & Hrun)|(s & _ & Hrun)];
    destruct (Hrun tr) as [-> _].
  - rewrite listing_run. simpl. apply tagRecommendStatus_frame.
  - rewrite getting_run. destruct (Get s Tag.zero (data tr)); simpl; auto.
    apply tagRecommendStatus_frame.
Qed.

(** The only error a read returns is the wrapped error of the store. *)
Lemma run_read_error (op : TagRead) (tr : tagRepo) :
  (run_read op tr).1.2 = database_error <$> fault (data tr).
Proof.
  destruct (run_read_shape op) as [(s & bean & _ & Hrun)|(s & _ & Hrun)];
    destruct (Hrun tr) as [-> _].
  - rewrite listing_run. simpl. apply Find_error.
  - rewrite getting_run. destruct (Get s Tag.zero (data tr)) as [e|row] eqn:Hget; simpl.
    + rewrite (Get_error _ _ _ Hget). reflexivity.
    + rewrite (Get_ok _ _ _ Hget). reflexivity.
Qed.

(** Every struct a read hands back is some struct as reads show it. *)
Lemma run_read_shown (op : TagRead) (tr : tagRepo) (r : Tag.t) :
  In r (run_read op tr).1.1 -> exists x, r = shown tr x.
Proof.
  destruct (run_read_shape op) as [(s & bean & _ & Hrun)|(s & _ & Hrun)];
    destruct (Hrun tr) as [-> _].
  - rewrite listing_run. simpl. rewrite List.in_map_iff.
    intros (x & <- & _). eauto.
  - rewrite getting_run. destruct (Get s Tag.zero (data tr)) as [e|row]; simpl.
    + contradiction.
    + intros [<-|[]]. eauto.
Qed.

(** A row found by a read that is restricted to available rows is a
    stored row whose status is available. *)
Lemma found_available (op : TagRead) (tr : tagRepo) (r : Tag.t) :
  available_only op = true -> In r (found op tr) ->
  exists x, In x (rows (data tr)) /\ r = shown tr x /\
            Tag.Status x = TagStatusAvailable.
Proof.
  intros Hop.
  assert (Hstatus : forall s bean x,
             In available (conds s) -> selects s bean x = true ->
             Tag.Status x = TagStatusAvailable).
  { intros s bean x Hav Hsel. apply selects_conds in Hsel as [Hsel _].
    apply Hsel in Hav. simpl in Hav. apply Z.eqb_eq. exact Hav. }
  destruct (run_read_shape op) as [(s & bean & Hav & Hrun)|(s & Hav & Hrun)];
    destruct (Hrun tr) as [_ ->].
  - intros Hin. apply listing_In in Hin as (x & Hin & -> & Hsel).
    exists x. repeat split; auto. exact (Hstatus _ _ _ (Hav Hop) Hsel).
  - rewrite getting_run.
    destruct (Get s Tag.zero (data tr)) as [e|[x|]] eqn:Hget; simpl; try contradiction.
    intros [<-|[]]. apply Get_found in Hget as [Hin Hsel].
    exists x. repeat split; auto. exact (Hstatus _ _ _ Hav Hsel).
Qed.

(** C2. When the site configuration says that tags are not required,
    every struct that any of the nine tag-returning reads hands back has
    its recommend field false, whatever the stored row holds, and the
    read leaves the repository, in particular the stored rows, exactly
    as it was. *)
Theorem recommend_masked_when_tags_not_required
    (op : TagRead) (tr : tagRepo) (tagconfig : SiteWriteResp) :
  GetSiteWrite tr = inr tagconfig -> RequiredTag tagconfig = false ->
  Forall (fun r => Tag.Recommend r = false) (run_read op tr).1.1 /\
  (run_read op tr).2 = tr.
Proof.
  intros Hsite Hflag.
  assert (Hstatus : tagRecommendStatus tr = (false, tr)).
  { unfold tagRecommendStatus. rewrite Hsite, Hflag. reflexivity. }
  split.
  - apply List.Forall_forall. intros r Hin.
    apply run_read_shown in Hin as (x & ->).
    destruct (shown_fields tr x) as (_ & _ & _ & _ & _ & _ & ->).
    unfold recommend_required. rewrite Hstatus. reflexivity.
  - destruct (run_read_shape op) as [(s & bean & _ & Hrun)|(s & _ & Hrun)];
      destruct (Hrun tr) as [-> _].
    + rewrite listing_run, Hstatus. reflexivity.
    + rewrite getting_run, Hstatus. destruct (Get s Tag.zero (data tr)); reflexivity.
Qed.

(** C10. When reading the site configuration fails, [tagRecommendStatus]
    logs the failure and answers false; every struct that any read hands
    back then has its recommend field false, and the error the read
    returns is that of the store alone: none when the store answered. *)
Theorem config_error_masks_recommend (tr : tagRepo) (err : error) :
  GetSiteWrite tr = inl err ->
  tagRecommendStatus tr =
    (false,
     mkRepo (data tr) (GetSiteWrite tr)
            (logged tr ++ [mkLog "siteInfoService.GetSiteWrite error" (Some err)])%list) /\
  forall op,
    Forall (fun r => Tag.Recommend r = false) (run_read op tr).1.1 /\
    (run_read op tr).1.2 = database_error <$> fault (data tr).
Proof.
  intros Hsite.
  assert (Hstatus : tagRecommendStatus tr =
    (false,
     mkRepo (data tr) (GetSiteWrite tr)
            (logged tr ++ [mkLog "siteInfoService.GetSiteWrite error" (Some err)])%list)).
  { unfold tagRecommendStatus, bind, log_Error, ret. cbv beta.
    rewrite Hsite. reflexivity. }
  split; [exact Hstatus|]. intros op. split; [|apply run_read_error].
  apply List.Forall_forall. intros r Hin.
  apply run_read_shown in Hin as (x & ->).
  destruct (shown_fields tr x) as (_ & _ & _ & _ & _ & _ & ->).
  unfold recommend_required. rewrite Hstatus. reflexivity.
Qed.

Lemma nonempty_length (s : string) :
  s <> "" <-> (0 <? Z.of_nat (String.length s))%Z = true.
Proof.
  destruct s as [|c s]; simpl; split; try congruence; try discriminate.
  intros _. apply Z.ltb_lt. lia.
Qed.

(** C9. [GetTagPage] assigns to the filter it receives by reference: when
    the filter's SlugName is not empty on entry, the struct the caller
    holds after the call is the filter with SlugName emptied, which
    differs from what the caller passed. *)
Theorem GetTagPage_clears_filter_slug
    (page pageSize : Z) (tag : Tag.t) (queryCond : string) (tr : tagRepo) :
  Tag.SlugName tag <> "" ->
  (GetTagPage page pageSize tag queryCond tr).1.1 = Tag.set_SlugName "" tag /\
  Tag.SlugName (GetTagPage page pageSize tag queryCond tr).1.1 = "" /\
  (GetTagPage page pageSize tag queryCond tr).1.1 <> tag.
Proof.
  intros Hslug. rewrite GetTagPage_run.
  destruct (listing _ tr) as [[l e] tr']. simpl.
  unfold page_filter. apply nonempty_length in Hslug as Hlen. rewrite Hlen.
  split; [reflexivity|]. split; [reflexivity|].
  intros Heq. apply Hslug. rewrite <- Heq. reflexivity.
Qed.

Lemma eval_Eq_bool (c : Col) (b : bool) (x : Tag.t) (v : bool) :
  col_value c x = VBool v -> eval (Eq_ c (VBool b)) x = true -> v = b.
Proof. simpl. intros ->. simpl. destruct v, b; simpl; congruence. Qed.

(** A row of a page is a stored row that meets the page's conditions. *)
Lemma GetTagPage_In (page pageSize : Z) (tag : Tag.t) (queryCond : string)
    (tr : tagRepo) (r : Tag.t) :
  In r (GetTagPage page pageSize tag queryCond tr).1.2.1.1 ->
  exists x, In x (rows (data tr)) /\ r = shown tr x /\
            forall k, In k (page_conds tag) -> eval k x = true.
Proof.
  rewrite GetTagPage_run.
  destruct (listing _ tr) as [[l e] tr'] eqn:Hrun. simpl. intros Hin.
  assert (Hl : l = (listing (Find (page_session page pageSize tag queryCond)
                                  (Some (page_filter tag))) tr).1.1)
    by (rewrite Hrun; reflexivity).
  rewrite Hl in Hin. apply listing_In in Hin as (x & Hx & -> & Hsel).
  apply selects_conds in Hsel as [Hsel _]. eauto.
Qed.






Lemma selects_id (tagID : string) (s : Session) (x : Tag.t) :
  conds s = [Eq_ id (VNum tagID)] ->
  selects s None x = String.eqb (Tag.ID x) tagID.
Proof. unfold selects. intros ->. simpl. apply andb_true_r. Qed.

(** [RemoveTag] either fails and changes nothing, or rewrites the status
    of the rows with that id and nothing else. *)
Lemma RemoveTag_run (tagID : string) (tr : tagRepo) :
  (RemoveTag tagID tr).1 = None ->
  TagStatusDeleted <> 0 /\
  (RemoveTag tagID tr).2 =
    mkRepo (mkEngine
              (map (fun x => if String.eqb (Tag.ID x) tagID
                             then Tag.set_Status TagStatusDeleted x else x)
                   (rows (data tr)))
              (fault (data tr)))
           (GetSiteWrite tr) (logged tr).
Proof.
  unfold RemoveTag, bind, exec, Update, ret, bean_cols, assign. simpl.
  destruct (fault (data tr)) as [e|]; [discriminate|].
  unfold bean_cols, bean_uses. simpl.
  destruct (Z.eqb_spec TagStatusDeleted 0) as [Hz|Hz]; simpl; [discriminate|].
  intros _. split; [exact Hz|].
  f_equal. f_equal. apply List.map_ext. intros x.
  erewrite selects_id; reflexivity.
Qed.



Lemma listing_unlimited (s : Session) (bean : option Tag.t) (tr : tagRepo) (x : Tag.t) :
  fault (data tr) = None -> limitN s = None ->
  In x (rows (data tr)) -> selects s bean x = true ->
  In (shown tr x) (listing (Find s bean) tr).1.1.
Proof.
  intros Hup Hlim Hx Hsel. rewrite listing_run. simpl. rewrite Find_rows, Hup.
  apply List.in_map. unfold window. rewrite Hlim. apply selected_In. auto.
Qed.

(** C8, as amended. While the store answers, [GetRecommendTagList]
    returns every stored row whose recommend flag is set and
    [GetReservedTagList] every stored row whose reserved flag is set,
    whatever the status of the row, and nothing else; [GetTagListByNames]
    likewise returns every stored row with one of the names, whatever its
    status. The reads that carry the status condition ([GetTagListByIDs],
    [GetTagBySlugName], [GetTagListByName], [GetTagByID], [GetTagList]
    and [GetTagPage]) find only rows whose status is available. *)
Theorem flag_listings_ignore_status (tr : tagRepo) :
  fault (data tr) = None ->
  (forall x, In x (rows (data tr)) -> Tag.Recommend x = true ->
             In (shown tr x) (GetRecommendTagList tr).1.1) /\
  (forall r, In r (GetRecommendTagList tr).1.1 ->
             exists x, In x (rows (data tr)) /\ r = shown tr x /\
                       Tag.Recommend x = true) /\
  (forall x, In x (rows (data tr)) -> Tag.Reserved x = true ->
             In (shown tr x) (GetReservedTagList tr).1.1) /\
  (forall r, In r (GetReservedTagList tr).1.1 ->
             exists x, In x (rows (data tr)) /\ r = shown tr x /\
                       Tag.Reserved x = true) /\
  (forall names x, In x (rows (data tr)) -> In (Tag.SlugName x) names ->
                   In (shown tr x) (GetTagListByNames names tr).1.1) /\
  (forall op, available_only op = true ->
              Forall (fun r => Tag.Status r = TagStatusAvailable) (found op tr)).
Proof.
  intros Hup. repeat apply conj.
  - intros x Hx Hrec.
    apply (listing_unlimited
             (NewSession |> Asc slug_name |> UseBool [recommend])
             (Some (Tag.set_Recommend true Tag.zero)) tr x Hup eq_refl Hx).
    unfold selects. simpl. rewrite Hrec. reflexivity.
  - intros r Hin.
    apply (listing_In (NewSession |> Asc slug_name |> UseBool [recommend])
                      (Some (Tag.set_Recommend true Tag.zero))) in Hin
      as (x & Hx & -> & Hsel).
    apply selects_conds in Hsel as [_ Hb].
    exists x. split; [exact Hx|]. split; [reflexivity|].
    apply (eval_Eq_bool recommend true x _ eq_refl). apply Hb. simpl. tauto.
  - intros x Hx Hres.
    apply (listing_unlimited
             (NewSession |> Asc slug_name |> UseBool [reserved])
             (Some (Tag.set_Reserved true Tag.zero)) tr x Hup eq_refl Hx).
    unfold selects. simpl. rewrite Hres. reflexivity.
  - intros r Hin.
    apply (listing_In (NewSession |> Asc slug_name |> UseBool [reserved])
                      (Some (Tag.set_Reserved true Tag.zero))) in Hin
      as (x & Hx & -> & Hsel).
    apply selects_conds in Hsel as [_ Hb].
    exists x. split; [exact Hx|]. split; [reflexivity|].
    apply (eval_Eq_bool reserved true x _ eq_refl). apply Hb. simpl. tauto.
  - intros names x Hx Hname.
    apply (listing_unlimited
             (NewSession |> Where (In_ slug_name (map VStr names))
                         |> UseBool [recommend; reserved]
                         |> OrderBy recommend_reserved_id_desc)
             None tr x Hup eq_refl Hx).
    unfold selects. simpl. rewrite andb_true_r.
    apply List.existsb_exists. exists (VStr (Tag.SlugName x)).
    split; [apply List.in_map; exact Hname|]. simpl. apply String.eqb_refl.
  - intros op Hop. apply List.Forall_forall. intros r Hin.
    apply (found_available op tr r Hop) in Hin as (x & _ & -> & Hav).
    destruct (shown_fields tr x) as (_ & _ & _ & _ & -> & _). exact Hav.
Qed.

End TagFacts.

Section TagExamples.
Import entity schema xorm tag sample.

Local Existing Instance consts.

(** With tags not required, the recommended rows come back unflagged and
    the repository is untouched. *)
Lemma recommend_masked_witness :
  Forall (fun r => Tag.Recommend r = false) (run_read ReadRecommend (repo false)).1.1 /\
  (run_read ReadRecommend (repo false)).2 = repo false.
Proof.
  exact (recommend_masked_when_tags_not_required ReadRecommend (repo false)
           {| RequiredTag := false |} eq_refl eq_refl).
Defined.

Lemma config_error_witness :
  Forall (fun r => Tag.Recommend r = false)
         (run_read (ReadByIDs ["1"; "5"]) repo_config_down).1.1 /\
  (run_read (ReadByIDs ["1"; "5"]) repo_config_down).1.2 = None.
Proof.
  destruct (config_error_masks_recommend repo_config_down
              (Err "site info unreachable") eq_refl) as [_ Hreads].
  exact (Hreads (ReadByIDs ["1"; "5"])).
Defined.

Lemma GetTagPage_clears_filter_slug_witness :
  (GetTagPage 1 10 (Tag.set_SlugName "lang" Tag.zero) "popular" (repo true)).1.1
  = Tag.zero.
Proof.
  destruct (GetTagPage_clears_filter_slug 1 10 (Tag.set_SlugName "lang" Tag.zero)
              "popular" (repo true)) as [Hfilter _]; [discriminate|].
  exact Hfilter.
Defined.





(** The row of "rust" is deleted, recommended and reserved: both flag
    listings return it. *)
Lemma flag_listings_witness :
  In (row "3" "rust" "Rust" 10 true true 0 2) (GetRecommendTagList (repo true)).1.1 /\
  In (row "3" "rust" "Rust" 10 true true 0 2) (GetReservedTagList (repo true)).1.1.
Proof.
  destruct (flag_listings_ignore_status (repo true) eq_refl)
    as (Hrec & _ & Hres & _).
  split.
  - apply (Hrec (row "3" "rust" "Rust" 10 true true 0 2)); [|reflexivity].
    simpl. tauto.
  - apply (Hres (row "3" "rust" "Rust" 10 true true 0 2)); [|reflexivity].
    simpl. tauto.
Defined.

(** C8, counterexample. [GetTagListByNames] is a listing other than the
    two flag listings, and it returns the row of "rust", whose status is
    deleted. *)
Lemma names_listing_returns_deleted_tag :
  Tag.Status (row "3" "rust" "Rust" 10 true true 0 2) = TagStatusDeleted /\
  In (row "3" "rust" "Rust" 10 true true 0 2) (rows (data (repo true))) /\
  (GetTagListByNames ["rust"; "go"] (repo true)).1 =
    ([row "3" "rust" "Rust" 10 true true 0 2; row "1" "go" "Go" 1 true false 0 5],
     None).
Proof. split; [reflexivity|]. split; [simpl; tauto|reflexivity]. Qed.

End TagExamples.

(** ** Further properties of the activity timeline *)

Section TimelineContent.
Import entity schema activity.
Context `{Consts}.
Variable svc : ActivityService.

Lemma fill_item_render (act : Activity.t) (lg : list LogEntry)
    (user : option UserBasicInfo) :
  GetUserBasicInfoByID svc (Activity.UserID act) = inr user ->
  fill_item svc act (new_item svc act) (display_label svc act) lg =
  (inr (render svc act), (lg ++ comment_log svc act)%list).
Proof.
  intros Hu.
  unfold fill_item, render, comment_text, comment_log, user_names, new_item,
    display_label, activity_label, bind, try.
  rewrite Hu.
  destruct (activity_key svc act) as [[objectType activityType] found]. simpl.
  destruct (String.eqb objectType constant.CommentObjectType);
    [destruct (GetComment svc (Activity.ObjectID act))|];
    destruct user; simpl; rewrite ?List.app_nil_r; reflexivity.
Qed.

Lemma timeline_loop_ok (activityList : list Activity.t) :
  first_user_error svc activityList = None ->
  forall timeline lg,
    timeline_loop svc activityList timeline lg =
    (inr (timeline ++ map (render svc) (List.filter (visible svc) activityList))%list,
     (lg ++ flat_map (comment_log svc) (List.filter (visible svc) activityList))%list).
Proof.
  induction activityList as [|act rest IH]; intros Hfirst timeline lg.
  - simpl. rewrite !List.app_nil_r. reflexivity.
  - rewrite timeline_loop_cons. simpl in Hfirst |- *.
    assert (Hv : visible svc act = negb (is_hidden svc act)) by reflexivity.
    rewrite Hv. destruct (is_hidden svc act); simpl.
    + apply IH. exact Hfirst.
    + destruct (GetUserBasicInfoByID svc (Activity.UserID act)) as [e|user] eqn:Hu;
        [discriminate|].
      unfold bind. rewrite (fill_item_render act lg user Hu).
      rewrite (IH Hfirst). rewrite <- !List.app_assoc. reflexivity.
Qed.

Lemma timeline_loop_fail (activityList : list Activity.t) (e : error) :
  first_user_error svc activityList = Some e ->
  forall timeline lg, (timeline_loop svc activityList timeline lg).1 = inl e.
Proof.
  induction activityList as [|act rest IH]; intros Hfirst timeline lg.
  - discriminate.
  - rewrite timeline_loop_cons. simpl in Hfirst.
    destruct (is_hidden svc act); [apply IH; exact Hfirst|].
    destruct (GetUserBasicInfoByID svc (Activity.UserID act)) as [e0|user] eqn:Hu.
    + injection Hfirst as ->. unfold bind.
      pose proof (fill_item_spec svc act (new_item svc act) (display_label svc act) lg)
        as Hf.
      rewrite Hu in Hf. rewrite Hf. reflexivity.
    + unfold bind. rewrite (fill_item_render act lg user Hu). apply IH. exact Hfirst.
Qed.

Lemma GetObjectTimeline_closed_form (req : GetObjectTimelineReq) (lg : list LogEntry) :
  (GetObjectTimeline svc req lg).1 =
  match GetInfo svc (ObjectID req) with
  | inl e => inl e
  | inr objInfo =>
      match GetObjectAllActivity svc (ObjectID req) (ShowVote req) with
      | inl e => inl e
      | inr activityList =>
          match first_user_error svc activityList with
          | Some e => inl e
          | None =>
              inr {| ObjectInfo := {| info_Title := obj_Title objInfo;
                                      info_ObjectType := obj_ObjectType objInfo;
                                      info_QuestionID := obj_QuestionID objInfo;
                                      info_AnswerID := obj_AnswerID objInfo |};
                     Timeline := map (render svc)
                                     (List.filter (visible svc) activityList) |}
          end
      end
  end.
Proof.
  unfold GetObjectTimeline, bind, try.
  destruct (GetInfo svc (ObjectID req)) as [e|objInfo]; [reflexivity|].
  destruct (GetObjectAllActivity svc (ObjectID req) (ShowVote req))
    as [e|activityList]; [reflexivity|].
  destruct (first_user_error svc activityList) as [e|] eqn:Hfirst.
  - pose proof (timeline_loop_fail activityList e Hfirst [] lg) as Hloop.
    destruct (timeline_loop svc activityList [] lg) as [[e0|out] lg1];
      simpl in Hloop |- *; [injection Hloop as ->; reflexivity|discriminate].
  - rewrite (timeline_loop_ok activityList Hfirst [] lg). reflexivity.
Qed.

(** X1. What [GetObjectTimeline] returns, in closed form: the error of
    loading the object, else the error of loading the activity list, else
    the error of the first shown activity whose user lookup fails, else the
    object summary copied from the object info with one rendered entry per
    shown activity, in the order of the activity list. *)
Theorem GetObjectTimeline_result (req : GetObjectTimelineReq) (lg : list LogEntry) :
  (GetObjectTimeline svc req lg).1 =
  match GetInfo svc (ObjectID req) with
  | inl e => inl e
  | inr objInfo =>
      match GetObjectAllActivity svc (ObjectID req) (ShowVote req) with
      | inl e => inl e
      | inr activityList =>
          match first_user_error svc activityList with
          | Some e => inl e
          | None =>
              inr {| ObjectInfo := {| info_Title := obj_Title objInfo;
                                      info_ObjectType := obj_ObjectType objInfo;
                                      info_QuestionID := obj_QuestionID objInfo;
                                      info_AnswerID := obj_AnswerID objInfo |};
                     Timeline := map (render svc)
                                     (List.filter (visible svc) activityList) |}
          end
      end
  end.
Proof. exact (GetObjectTimeline_closed_form req lg). Qed.

(** X2. A timeline request that succeeds adds to the log exactly one entry
    for each shown activity of object type "comment" whose comment lookup
    failed, in the order of the activity list, and nothing else; the
    comment service is not consulted for the other activities. *)
Theorem GetObjectTimeline_log (req : GetObjectTimelineReq) (lg lg' : list LogEntry)
    (resp : GetObjectTimelineResp) :
  GetObjectTimeline svc req lg = (inr resp, lg') ->
  exists activityList,
    GetObjectAllActivity svc (ObjectID req) (ShowVote req) = inr activityList /\
    lg' = (lg ++ flat_map (comment_log svc)
                          (List.filter (visible svc) activityList))%list /\
    Forall (fun item => ActObjectTimeline.ObjectType item <> constant.CommentObjectType ->
                        ActObjectTimeline.Comment item = "") (Timeline resp).
Proof.
  intros Hrun. pose proof (GetObjectTimeline_closed_form req lg) as Hres.
  unfold GetObjectTimeline, bind, try in Hrun.
  destruct (GetInfo svc (ObjectID req)) as [e|objInfo]; [discriminate|].
  destruct (GetObjectAllActivity svc (ObjectID req) (ShowVote req))
    as [e|activityList]; [discriminate|].
  exists activityList. split; [reflexivity|].
  destruct (first_user_error svc activityList) as [e|] eqn:Hfirst.
  - pose proof (timeline_loop_fail activityList e Hfirst [] lg) as Hloop.
    destruct (timeline_loop svc activityList [] lg) as [[e0|out] lg1];
      simpl in Hloop; discriminate.
  - rewrite (timeline_loop_ok activityList Hfirst [] lg) in Hrun.
    injection Hrun as <- <-. split; [reflexivity|]. simpl.
    apply List.Forall_forall. intros item Hin.
    apply List.in_map_iff in Hin as (act & <- & _).
    unfold render, comment_text. simpl. intros Hty.
    apply String.eqb_neq in Hty. rewrite Hty. reflexivity.
Qed.

Lemma visible_label (act : Activity.t) :
  visible svc act = true -> ~ In (display_label svc act) raw_labels.
Proof.
  unfold visible, is_hidden, display_label.
  destruct (formatActivity_cases (activity_label svc act))
    as [[Hs ->]|[[Hs ->]|[[Hs ->]|[Hs ->]]]]; simpl; try discriminate.
  - intros _ [?|[?|[?|[?|[?|[]]]]]]; discriminate.
  - intros _ [?|[?|[?|[?|[?|[]]]]]]; discriminate.
  - destruct Hs as (n1 & n2 & n3 & n4 & n5).
    intros _ [E|[E|[E|[E|[E|[]]]]]]; symmetry in E; contradiction.
Qed.

(** X3. No entry of a returned timeline carries one of the labels
    "voted_up", "voted_down", "accepted", "vote_up" or "vote_down". *)
Theorem timeline_labels_never_raw (req : GetObjectTimelineReq) (lg lg' : list LogEntry)
    (resp : GetObjectTimelineResp) :
  GetObjectTimeline svc req lg = (inr resp, lg') ->
  Forall (fun item => ~ In (ActObjectTimeline.ActivityType item) raw_labels)
         (Timeline resp).
Proof.
  intros Hrun. pose proof (GetObjectTimeline_closed_form req lg) as Hres.
  rewrite Hrun in Hres. simpl in Hres.
  destruct (GetInfo svc (ObjectID req)) as [e|objInfo]; [discriminate|].
  destruct (GetObjectAllActivity svc (ObjectID req) (ShowVote req))
    as [e|activityList]; [discriminate|].
  destruct (first_user_error svc activityList) as [e|]; [discriminate|].
  injection Hres as ->. simpl.
  apply List.Forall_forall. intros item Hin.
  apply List.in_map_iff in Hin as (act & <- & Hact).
  apply List.filter_In in Hact as [_ Hvis].
  exact (visible_label act Hvis).
Qed.

(** X4. An activity whose type code has no entry in [ID2KeyMapping] is not
    hidden: a returned timeline holds an entry for it, with the empty
    object type and the empty label. *)
Theorem unmapped_activity_is_shown (req : GetObjectTimelineReq) (lg lg' : list LogEntry)
    (resp : GetObjectTimelineResp) (activityList : list Activity.t) (act : Activity.t) :
  GetObjectTimeline svc req lg = (inr resp, lg') ->
  GetObjectAllActivity svc (ObjectID req) (ShowVote req) = inr activityList ->
  In act activityList ->
  ID2KeyMapping svc !! Activity.ActivityType act = None ->
  exists item, In item (Timeline resp) /\
               ActObjectTimeline.ActivityID item = Activity.ID act /\
               ActObjectTimeline.ObjectType item = "" /\
               ActObjectTimeline.ActivityType item = "" /\
               ActObjectTimeline.Comment item = "".
Proof.
  intros Hrun Hacts Hin Hkey. pose proof (GetObjectTimeline_closed_form req lg) as Hres.
  rewrite Hrun, Hacts in Hres. simpl in Hres.
  destruct (GetInfo svc (ObjectID req)) as [e|objInfo]; [discriminate|].
  destruct (first_user_error svc activityList) as [e|]; [discriminate|].
  injection Hres as ->. simpl.
  assert (Hk : activity_key svc act = ("", "", false)).
  { unfold activity_key. rewrite Hkey. reflexivity. }
  exists (render svc act). split.
  - apply List.in_map. apply List.filter_In. split; [exact Hin|].
    unfold visible, is_hidden, activity_label. rewrite Hk. reflexivity.
  - unfold render, comment_text, display_label, activity_label. rewrite Hk.
    simpl. auto.
Qed.

End TimelineContent.

Section KeyDecoding.
Import entity schema activity xorm.
Variable svc : ActivityService.

Lemma append_assoc (x y z : string) : (x ++ y) ++ z = x ++ (y ++ z).
Proof.
  induction x as [|c x IH]; [reflexivity|].
  change (String c ((x ++ y) ++ z) = String c (x ++ (y ++ z))). rewrite IH. reflexivity.
Qed.

Lemma string_drop_append (p b : string) : string_drop (String.length p) (p ++ b) = b.
Proof. induction p as [|c p IH]; [reflexivity|exact IH]. Qed.

Lemma Cut_unfold (s sep : string) :
  Cut s sep =
  if String.prefix sep s then ("", string_drop (String.length sep) s, true)
  else match s with
       | EmptyString => (s, "", false)
       | String c s' =>
           match Cut s' sep with
           | (before, after, true) => (String c before, after, true)
           | (_, _, false) => (s, "", false)
           end
       end.
Proof. destruct s; reflexivity. Qed.

Lemma not_prefix_no_head (sep s y : string) :
  String.prefix sep s = false -> s <> sep ++ y.
Proof.
  intros Hp Hs. assert (String.prefix sep s = true) by (apply prefix_split; eauto).
  congruence.
Qed.

(** [strings.Cut]: a separator that occurs is cut at its first occurrence;
    one that does not occur leaves the whole string before it. *)
Lemma Cut_spec (sep : string) :
  sep <> "" ->
  forall s,
    match Cut s sep with
    | (before, after, true) => s = before ++ sep ++ after /\ ~ occurs_in sep before
    | (before, after, false) => before = s /\ after = "" /\ ~ occurs_in sep s
    end.
Proof.
  intros Hsep. induction s as [|c s IH]; rewrite Cut_unfold.
  - destruct (String.prefix sep "") eqn:Hp.
    + destruct sep; [contradiction|discriminate].
    + repeat split. intros (x & y & Hxy).
      destruct x; [|discriminate]. exact (not_prefix_no_head _ _ y Hp Hxy).
  - destruct (String.prefix sep (String c s)) eqn:Hp.
    + apply prefix_split in Hp as [b Hb]. rewrite Hb at 1 2.
      rewrite string_drop_append. split; [reflexivity|].
      intros (x & y & Hxy). destruct x; [|discriminate].
      destruct sep; [contradiction|discriminate].
    + destruct (Cut s sep) as [[before after] [|]].
      * destruct IH as [-> Hfirst]. split; [reflexivity|].
        intros (x & y & Hxy). destruct x as [|c' x].
        -- apply (not_prefix_no_head _ _ (y ++ sep ++ after) Hp).
           change ("" ++ sep ++ y) with (sep ++ y) in Hxy.
           change (String c (before ++ sep ++ after))
             with (String c before ++ sep ++ after).
           rewrite Hxy. apply append_assoc.
        -- change (String c before = String c' (x ++ sep ++ y)) in Hxy.
           injection Hxy as _ Hb. apply Hfirst. exists x, y. exact Hb.
      * destruct IH as (_ & _ & Hno). repeat split.
        intros (x & y & Hxy). destruct x as [|c' x].
        -- exact (not_prefix_no_head _ _ y Hp Hxy).
        -- change (String c s = String c' (x ++ sep ++ y)) in Hxy.
           injection Hxy as _ Hs. apply Hno. exists x, y. exact Hs.
Qed.

(** X5. How the timeline splits the key of an activity type, such as
    "question.asked": when the key holds a dot, the object type is the part
    before the first dot (it holds no dot itself) and the label the part
    after it, so that object type, dot and label give the key back; when it
    holds no dot, the object type is the whole key and the label is empty. *)
Theorem activity_key_decoding (act : Activity.t) :
  let key := default "" (ID2KeyMapping svc !! Activity.ActivityType act) in
  let objectType := (activity_key svc act).1.1 in
  (occurs_in "." key ->
   key = objectType ++ "." ++ activity_label svc act /\ ~ occurs_in "." objectType) /\
  (~ occurs_in "." key ->
   objectType = key /\ activity_label svc act = "").
Proof.
  intros key objectType. unfold objectType, activity_label, activity_key. fold key.
  assert (Hdot : "." <> "") by discriminate.
  pose proof (Cut_spec "." Hdot key) as Hcut.
  destruct (Cut key ".") as [[before after] [|]]; simpl.
  - destruct Hcut as [Hkey Hfirst]. split; [auto|].
    intros Hno. exfalso. apply Hno. exists before, after. exact Hkey.
  - destruct Hcut as (-> & -> & Hno). split; [contradiction|auto].
Qed.

(** X6. [GetObjectTimelineDetail] fails exactly when loading the old
    revision or its object fails, with that error, or when the old one
    loads and loading the new revision or its object fails: the old
    revision's error takes precedence over the new one's. *)
Theorem GetObjectTimelineDetail_error (req : GetObjectTimelineDetailReq)
    (lg : list LogEntry) (e : error) :
  (GetObjectTimelineDetail svc req lg).1 = inl e <->
  revision_load_error svc (OldRevisionID req) e \/
  (forall e', ~ revision_load_error svc (OldRevisionID req) e') /\
  revision_load_error svc (NewRevisionID req) e.
Proof.
  assert (Hload : forall r lg0,
             match (getOneObjectDetail svc r lg0).1 with
             | inl e0 => forall e', revision_load_error svc r e' <-> e' = e0
             | inr _ => forall e', ~ revision_load_error svc r e'
             end).
  { intros r lg0. pose proof (getOneObjectDetail_spec svc r lg0) as Hs.
    unfold revision_load_error.
    destruct (GetRevision svc r) as [e0|revision].
    - rewrite Hs. simpl. intros e'. split.
      + intros [He|(rv & Hrv & _)]; congruence.
      + intros ->. left. reflexivity.
    - destruct (GetInfo svc (rev_ObjectID revision)) as [e0|objInfo] eqn:Hinfo.
      + rewrite Hs. simpl. intros e'. split.
        * intros [He|(rv & Hrv & Hi)]; [discriminate|].
          injection Hrv as <-. congruence.
        * intros ->. right. eauto.
      + destruct Hs as (detail & lg1 & -> & _). simpl.
        intros e' [He|(rv & Hrv & Hi)]; [discriminate|].
        injection Hrv as <-. congruence. }
  unfold GetObjectTimelineDetail, bind.
  pose proof (Hload (OldRevisionID req) lg) as Hold.
  destruct (getOneObjectDetail svc (OldRevisionID req) lg) as [[e0|old] lg1];
    simpl in Hold |- *.
  - split.
    + intros He. injection He as <-. left. apply Hold. reflexivity.
    + intros [He|[Hno _]].
      * apply Hold in He. congruence.
      * exfalso. apply (Hno e0). apply Hold. reflexivity.
  - pose proof (Hload (NewRevisionID req) lg1) as Hnew.
    destruct (getOneObjectDetail svc (NewRevisionID req) lg1) as [[e0|new] lg2];
      simpl in Hnew |- *.
    + split.
      * intros He. injection He as <-. right. split; [exact Hold|].
        apply Hnew. reflexivity.
      * intros [He|[_ He]]; [exfalso; exact (Hold _ He)|].
        apply Hnew in He. congruence.
    + split; [discriminate|].
      intros [He|[_ He]]; exfalso; [exact (Hold _ He)|exact (Hnew _ He)].
Qed.

End KeyDecoding.

(** ** Further properties of the tag repository *)

Section ColumnFacts.
Import entity xorm.





(** Two rows with the same value in every column are the same row. *)
Lemma tag_ext (x y : Tag.t) : (forall c, col_value c x = col_value c y) -> x = y.
Proof.
  intros Hc. destruct x, y.
  pose proof (Hc id) as H1. pose proof (Hc created_at) as H2.
  pose proof (Hc main_tag_id) as H3. pose proof (Hc main_tag_slug_name) as H4.
  pose proof (Hc slug_name) as H5. pose proof (Hc display_name) as H6.
  pose proof (Hc original_text) as H7. pose proof (Hc question_count) as H8.
  pose proof (Hc status) as H9. pose proof (Hc recommend) as H10.
  pose proof (Hc reserved) as H11. pose proof (Hc revision_id) as H12.
  simpl in *. congruence.
Qed.




Lemma existsb_VStr (s : string) (l : list string) :
  existsb (value_eqb (VStr s)) (map VStr l) = existsb (String.eqb s) l.
Proof. induction l as [|a l IH]; simpl; [reflexivity|]. rewrite IH. reflexivity. Qed.

Lemma selects_slug_in (names : list string) (s : Session) (x : Tag.t) :
  conds s = [In_ slug_name (map VStr names)] ->
  selects s None x = existsb (String.eqb (Tag.SlugName x)) names.
Proof.
  unfold selects. intros ->. simpl. rewrite andb_true_r. apply existsb_VStr.
Qed.

Lemma existsb_eqb_In (s : string) (l : list string) :
  existsb (String.eqb s) l = true <-> In s l.
Proof.
  rewrite List.existsb_exists. split.
  - intros (a & Hin & Heq). apply String.eqb_eq in Heq. subst. exact Hin.
  - intros Hin. exists s. split; [exact Hin|]. apply String.eqb_refl.
Qed.

Lemma map_id_on {A} (f : A -> A) (l : list A) :
  (forall x, In x l -> f x = x) -> map f l = l.
Proof.
  induction l as [|a l IH]; intros Hf; [reflexivity|]. simpl.
  rewrite Hf by (left; reflexivity). rewrite IH; [reflexivity|].
  intros x Hin. apply Hf. right. exact Hin.
Qed.

End ColumnFacts.

Section WriteFacts.
Import entity schema xorm tag.
Context `{Consts}.

Lemma repo_eta (tr : tagRepo) :
  mkRepo (mkEngine (rows (data tr)) (fault (data tr))) (GetSiteWrite tr) (logged tr) = tr.
Proof. destruct tr as [[r f] s l]. reflexivity. Qed.

(** [UpdateTagsAttribute] with an attribute other than "recommend" and
    "reserved" returns before any statement is built. *)
Lemma UpdateTagsAttribute_unknown
    (tags : list string) (attribute : string) (value : bool) (tr : tagRepo) :
  attribute <> "recommend" -> attribute <> "reserved" ->
  UpdateTagsAttribute tags attribute value tr = (None, tr).
Proof.
  intros Hrec Hres. unfold UpdateTagsAttribute, attribute_bean.
  apply String.eqb_neq in Hrec, Hres. rewrite Hrec, Hres. reflexivity.
Qed.

Lemma UpdateTagsAttribute_run (tags : list string) (value : bool) (tr : tagRepo) :
  fault (data tr) = None ->
  UpdateTagsAttribute tags "recommend" value tr =
    (None,
     mkRepo (mkEngine
               (map (fun x => if existsb (String.eqb (Tag.SlugName x)) tags
                              then Tag.set_Recommend value x else x)
                    (rows (data tr)))
               None)
            (GetSiteWrite tr) (logged tr)) /\
  UpdateTagsAttribute tags "reserved" value tr =
    (None,
     mkRepo (mkEngine
               (map (fun x => if existsb (String.eqb (Tag.SlugName x)) tags
                              then Tag.set_Reserved value x else x)
                    (rows (data tr)))
               None)
            (GetSiteWrite tr) (logged tr)).
Proof.
  intros Hup.
  split; unfold UpdateTagsAttribute, attribute_bean, bind, exec, UpdateCols, ret;
    simpl; rewrite Hup; simpl; f_equal; f_equal; f_equal;
    apply List.map_ext; intros x; (erewrite selects_slug_in; [|reflexivity]);
    reflexivity.
Qed.

(** X7. While the store answers, [UpdateTagsAttribute] with "recommend"
    (with "reserved") writes the given value, false included, to that flag
    of every row whose slug name is listed, and changes no other column and
    no other row; while the store fails it returns the wrapped error and
    changes nothing. With any other attribute, in whatever letter case, it
    does nothing and reports no error, even while the store fails: no
    statement reaches the store. *)
Theorem UpdateTagsAttribute_sets_flag (tags : list string) (value : bool) (tr : tagRepo) :
  (fault (data tr) = None ->
   UpdateTagsAttribute tags "recommend" value tr =
     (None,
      mkRepo (mkEngine
                (map (fun x => if existsb (String.eqb (Tag.SlugName x)) tags
                               then Tag.set_Recommend value x else x)
                     (rows (data tr)))
                None)
             (GetSiteWrite tr) (logged tr)) /\
   UpdateTagsAttribute tags "reserved" value tr =
     (None,
      mkRepo (mkEngine
                (map (fun x => if existsb (String.eqb (Tag.SlugName x)) tags
                               then Tag.set_Reserved value x else x)
                     (rows (data tr)))
                None)
             (GetSiteWrite tr) (logged tr))) /\
  (forall e attribute,
      fault (data tr) = Some e ->
      attribute = "recommend" \/ attribute = "reserved" ->
      UpdateTagsAttribute tags attribute value tr = (Some (database_error e), tr)) /\
  (forall attribute,
      attribute <> "recommend" -> attribute <> "reserved" ->
      UpdateTagsAttribute tags attribute value tr = (None, tr)).
Proof.
  split; [|split].
  - apply UpdateTagsAttribute_run.
  - intros e attribute Hdown [-> | ->];
      unfold UpdateTagsAttribute, attribute_bean, bind, exec, UpdateCols, ret;
      simpl; rewrite Hdown; reflexivity.
  - intros attribute. apply UpdateTagsAttribute_unknown.
Qed.

Lemma UpdateTagSynonym_run (names : list string) (mainTagID : Z)
    (mainTagSlugName : string) (tr : tagRepo) :
  fault (data tr) = None ->
  UpdateTagSynonym names mainTagID mainTagSlugName tr =
    (None,
     mkRepo (mkEngine
               (map (fun x => if existsb (String.eqb (Tag.SlugName x)) names
                              then Tag.set_MainTagSlugName mainTagSlugName
                                     (Tag.set_MainTagID mainTagID x)
                              else x)
                    (rows (data tr)))
               None)
            (GetSiteWrite tr) (logged tr)).
Proof.
  intros Hup. unfold UpdateTagSynonym, bind, exec, Update, ret, assign. simpl.
  rewrite Hup. unfold bean_cols, bean_uses. simpl.
  f_equal. f_equal. f_equal. apply List.map_ext. intros x.
  erewrite selects_slug_in; reflexivity.
Qed.

(** X8. While the store answers, [UpdateTagSynonym] writes the given main
    tag id and main tag slug name, the zero values [0] and the empty string
    included, to every row whose slug name is listed, and changes no other
    column and no other row; with an empty list it changes nothing. While
    the store fails it returns the wrapped error and changes nothing. *)
Theorem UpdateTagSynonym_writes_link (names : list string) (mainTagID : Z)
    (mainTagSlugName : string) (tr : tagRepo) :
  (fault (data tr) = None ->
   UpdateTagSynonym names mainTagID mainTagSlugName tr =
     (None,
      mkRepo (mkEngine
                (map (fun x => if existsb (String.eqb (Tag.SlugName x)) names
                               then Tag.set_MainTagSlugName mainTagSlugName
                                      (Tag.set_MainTagID mainTagID x)
                               else x)
                     (rows (data tr)))
                None)
             (GetSiteWrite tr) (logged tr))) /\
  (fault (data tr) = None ->
   UpdateTagSynonym [] mainTagID mainTagSlugName tr = (None, tr)) /\
  (forall e, fault (data tr) = Some e ->
             UpdateTagSynonym names mainTagID mainTagSlugName tr =
               (Some (database_error e), tr)).
Proof.
  split; [apply UpdateTagSynonym_run|]. split.
  - intros Hup. rewrite (UpdateTagSynonym_run [] _ _ tr Hup). simpl.
    rewrite List.map_id, <- Hup. rewrite repo_eta. reflexivity.
  - intros e Hdown. unfold UpdateTagSynonym, bind, exec, Update, ret. simpl.
    rewrite Hdown. reflexivity.
Qed.

End WriteFacts.

Section WriteThenRead.
Import entity schema xorm tag.
Context `{Consts}.

Lemma shown_more_fields (tr : tagRepo) (x : Tag.t) :
  Tag.QuestionCount (shown tr x) = Tag.QuestionCount x /\
  Tag.CreatedAt (shown tr x) = Tag.CreatedAt x /\
  Tag.MainTagSlugName (shown tr x) = Tag.MainTagSlugName x /\
  Tag.OriginalText (shown tr x) = Tag.OriginalText x /\
  Tag.RevisionID (shown tr x) = Tag.RevisionID x.
Proof. unfold shown. destruct (recommend_required tr); simpl; auto. Qed.

(** X9. While the store answers: after [UpdateTagsAttribute] has set
    "recommend" to true for a list of slug names, [GetRecommendTagList]
    returns every stored row with one of those names; after it has set the
    flag to false, [GetRecommendTagList] returns no row with one of those
    names. The same holds for "reserved" and [GetReservedTagList]. *)
Theorem UpdateTagsAttribute_then_flag_listing (tags : list string) (tr : tagRepo) :
  fault (data tr) = None ->
  (forall x, In x (rows (data tr)) -> In (Tag.SlugName x) tags ->
     exists r, In r (GetRecommendTagList
                       (UpdateTagsAttribute tags "recommend" true tr).2).1.1 /\
               Tag.ID r = Tag.ID x /\ Tag.SlugName r = Tag.SlugName x) /\
  Forall (fun r => ~ In (Tag.SlugName r) tags)
         (GetRecommendTagList (UpdateTagsAttribute tags "recommend" false tr).2).1.1 /\
  (forall x, In x (rows (data tr)) -> In (Tag.SlugName x) tags ->
     exists r, In r (GetReservedTagList
                       (UpdateTagsAttribute tags "reserved" true tr).2).1.1 /\
               Tag.ID r = Tag.ID x /\ Tag.SlugName r = Tag.SlugName x) /\
  Forall (fun r => ~ In (Tag.SlugName r) tags)
         (GetReservedTagList (UpdateTagsAttribute tags "reserved" false tr).2).1.1.
Proof.
  intros Hup.
  destruct (UpdateTagsAttribute_run tags true tr Hup) as [Hrec_t Hres_t].
  destruct (UpdateTagsAttribute_run tags false tr Hup) as [Hrec_f Hres_f].
  repeat apply conj.
  - intros x Hx Hname. rewrite Hrec_t. simpl.
    set (tr' := mkRepo _ _ _).
    exists (shown tr' (Tag.set_Recommend true x)). split.
    + apply (listing_unlimited
               (NewSession |> Asc slug_name |> UseBool [recommend])
               (Some (Tag.set_Recommend true Tag.zero)) tr'); try reflexivity.
      simpl. apply List.in_map_iff. exists x. split; [|exact Hx].
      apply existsb_eqb_In in Hname. rewrite Hname. reflexivity.
    + destruct (shown_fields tr' (Tag.set_Recommend true x)) as (-> & -> & _). auto.
  - rewrite Hrec_f. simpl. set (tr' := mkRepo _ _ _).
    apply List.Forall_forall. intros r Hin.
    apply (listing_In (NewSession |> Asc slug_name |> UseBool [recommend])
                      (Some (Tag.set_Recommend true Tag.zero))) in Hin
      as (x' & Hx' & -> & Hsel).
    apply selects_conds in Hsel as [_ Hb].
    assert (Hrec : Tag.Recommend x' = true).
    { apply (eval_Eq_bool recommend true x' _ eq_refl). apply Hb. simpl. tauto. }
    destruct (shown_fields tr' x') as (_ & -> & _).
    simpl in Hx'. apply List.in_map_iff in Hx' as (x & <- & Hx).
    destruct (existsb (String.eqb (Tag.SlugName x)) tags) eqn:Hmem.
    + simpl in Hrec. discriminate.
    + intros Hname. apply existsb_eqb_In in Hname. congruence.
  - intros x Hx Hname. rewrite Hres_t. simpl.
    set (tr' := mkRepo _ _ _).
    exists (shown tr' (Tag.set_Reserved true x)). split.
    + apply (listing_unlimited
               (NewSession |> Asc slug_name |> UseBool [reserved])
               (Some (Tag.set_Reserved true Tag.zero)) tr'); try reflexivity.
      simpl. apply List.in_map_iff. exists x. split; [|exact Hx].
      apply existsb_eqb_In in Hname. rewrite Hname. reflexivity.
    + destruct (shown_fields tr' (Tag.set_Reserved true x)) as (-> & -> & _). auto.
  - rewrite Hres_f. simpl. set (tr' := mkRepo _ _ _).
    apply List.Forall_forall. intros r Hin.
    apply (listing_In (NewSession |> Asc slug_name |> UseBool [reserved])
                      (Some (Tag.set_Reserved true Tag.zero))) in Hin
      as (x' & Hx' & -> & Hsel).
    apply selects_conds in Hsel as [_ Hb].
    assert (Hres : Tag.Reserved x' = true).
    { apply (eval_Eq_bool reserved true x' _ eq_refl). apply Hb. simpl. tauto. }
    destruct (shown_fields tr' x') as (_ & -> & _).
    simpl in Hx'. apply List.in_map_iff in Hx' as (x & <- & Hx).
    destruct (existsb (String.eqb (Tag.SlugName x)) tags) eqn:Hmem.
    + simpl in Hres. discriminate.
    + intros Hname. apply existsb_eqb_In in Hname. congruence.
Qed.

(** X10. While the store answers: after [UpdateTagSynonym] has linked a
    list of slug names to a main tag whose id is not 0, no page of
    [GetTagPage], for any filter and sort mode, holds a row with one of
    those names. *)
Theorem UpdateTagSynonym_then_page (names : list string) (mainTagID : Z)
    (mainTagSlugName : string) (tr : tagRepo)
    (page pageSize : Z) (tag : Tag.t) (queryCond : string) :
  fault (data tr) = None -> mainTagID <> 0 ->
  Forall (fun r => ~ In (Tag.SlugName r) names)
         (GetTagPage page pageSize tag queryCond
            (UpdateTagSynonym names mainTagID mainTagSlugName tr).2).1.2.1.1.
Proof.
  intros Hup Hmain. rewrite (UpdateTagSynonym_run names _ _ tr Hup). simpl.
  set (tr' := mkRepo _ _ _).
  apply List.Forall_forall. intros r Hin.
  apply GetTagPage_In in Hin as (x' & Hx' & -> & Hk).
  assert (Hcanon : eval (Eq_ main_tag_id (VInt 0)) x' = true).
  { apply Hk. unfold page_conds. rewrite List.in_app_iff. simpl. tauto. }
  simpl in Hcanon. apply Z.eqb_eq in Hcanon.
  destruct (shown_fields tr' x') as (_ & -> & _).
  simpl in Hx'. apply List.in_map_iff in Hx' as (x & <- & Hx).
  destruct (existsb (String.eqb (Tag.SlugName x)) names) eqn:Hmem.
  - simpl in Hcanon. contradiction.
  - intros Hname. apply existsb_eqb_In in Hname. congruence.
Qed.

Lemma UpdateTagQuestionCount_run (tagID : string) (questionCount : Z) (tr : tagRepo) :
  fault (data tr) = None ->
  UpdateTagQuestionCount tagID questionCount tr =
    (None,
     mkRepo (mkEngine
               (map (fun x => if String.eqb (Tag.ID x) tagID
                              then Tag.set_QuestionCount questionCount x else x)
                    (rows (data tr)))
               None)
            (GetSiteWrite tr) (logged tr)).
Proof.
  intros Hup. unfold UpdateTagQuestionCount, bind, exec, Update, ret, assign. simpl.
  rewrite Hup. unfold bean_cols, bean_uses. simpl.
  f_equal. f_equal. f_equal. apply List.map_ext. intros x.
  erewrite selects_id; reflexivity.
Qed.

Lemma RemoveTag_up (tagID : string) (tr : tagRepo) :
  fault (data tr) = None -> TagStatusDeleted <> 0 ->
  RemoveTag tagID tr =
    (None,
     mkRepo (mkEngine
               (map (fun x => if String.eqb (Tag.ID x) tagID
                              then Tag.set_Status TagStatusDeleted x else x)
                    (rows (data tr)))
               None)
            (GetSiteWrite tr) (logged tr)).
Proof.
  intros Hup Hz. unfold RemoveTag, bind, exec, Update, ret, assign. simpl.
  rewrite Hup. unfold bean_cols, bean_uses. simpl.
  apply Z.eqb_neq in Hz. rewrite Hz. simpl.
  f_equal. f_equal. f_equal. apply List.map_ext. intros x.
  erewrite selects_id; reflexivity.
Qed.

Lemma repo_unchanged (f : Tag.t -> Tag.t) (tr : tagRepo) :
  fault (data tr) = None ->
  (forall x, In x (rows (data tr)) -> f x = x) ->
  mkRepo (mkEngine (map f (rows (data tr))) None) (GetSiteWrite tr) (logged tr) = tr.
Proof.
  intros Hup Hf. rewrite (map_id_on f _ Hf), <- Hup. destruct tr as [[r fl] s l].
  reflexivity.
Qed.


(** X12. [RemoveTag] is idempotent: removing once more a tag whose removal
    succeeded succeeds again and changes nothing. *)
Theorem RemoveTag_idempotent (tagID : string) (tr : tagRepo) :
  (RemoveTag tagID tr).1 = None ->
  RemoveTag tagID (RemoveTag tagID tr).2 = (None, (RemoveTag tagID tr).2).
Proof.
  intros Hok. destruct (RemoveTag_run tagID tr Hok) as [Hz Hrun].
  assert (Hup : fault (data tr) = None).
  { unfold RemoveTag, bind, exec, Update in Hok.
    destruct (fault (data tr)); [discriminate|reflexivity]. }
  rewrite Hrun. set (tr' := mkRepo _ _ _).
  assert (Hup' : fault (data tr') = None) by exact Hup.
  rewrite (RemoveTag_up tagID tr' Hup' Hz). f_equal.
  apply repo_unchanged; [exact Hup'|].
  intros x' Hx'. simpl in Hx'. apply List.in_map_iff in Hx' as (x & <- & _).
  destruct (String.eqb (Tag.ID x) tagID) eqn:Hid; simpl; rewrite Hid; reflexivity.
Qed.

(** X13. Of two [UpdateTagQuestionCount] calls for the same id the last
    one wins: the result and the repository after both are those of the
    second call alone, whether the store answers or not. *)
Theorem UpdateTagQuestionCount_last_wins (tagID : string) (n m : Z) (tr : tagRepo) :
  UpdateTagQuestionCount tagID m (UpdateTagQuestionCount tagID n tr).2 =
  UpdateTagQuestionCount tagID m tr.
Proof.
  destruct (fault (data tr)) as [e|] eqn:Hup.
  - assert (Hdown : forall k, UpdateTagQuestionCount tagID k tr
                              = (Some (database_error e), tr)).
    { intros k. unfold UpdateTagQuestionCount, bind, exec, Update, ret. simpl.
      rewrite Hup. reflexivity. }
    rewrite (Hdown n). reflexivity.
  - rewrite (UpdateTagQuestionCount_run tagID n tr Hup). simpl.
    set (tr' := mkRepo _ _ _).
    rewrite (UpdateTagQuestionCount_run tagID m tr' eq_refl).
    rewrite (UpdateTagQuestionCount_run tagID m tr Hup).
    simpl. rewrite List.map_map. f_equal. f_equal. f_equal.
    apply List.map_ext. intros x.
    destruct (String.eqb (Tag.ID x) tagID) eqn:Hid; simpl; rewrite Hid; reflexivity.
Qed.

(** X14. A tag that [RemoveTag] has deleted is still listed by the reads
    that carry no status condition: if the row was recommended,
    [GetRecommendTagList] returns it, with the deleted status; if it was
    reserved, so does [GetReservedTagList]; and [GetTagListByNames] returns
    it for its slug name. *)
Theorem RemoveTag_then_unrestricted_listing (tagID : string) (tr : tagRepo) (x : Tag.t) :
  (RemoveTag tagID tr).1 = None ->
  In x (rows (data tr)) -> Tag.ID x = tagID ->
  let tr' := (RemoveTag tagID tr).2 in
  let gone := shown tr' (Tag.set_Status TagStatusDeleted x) in
  Tag.Status gone = TagStatusDeleted /\ Tag.ID gone = tagID /\
  (Tag.Recommend x = true -> In gone (GetRecommendTagList tr').1.1) /\
  (Tag.Reserved x = true -> In gone (GetReservedTagList tr').1.1) /\
  In gone (GetTagListByNames [Tag.SlugName x] tr').1.1.
Proof.
  intros Hok Hx Hid tr' gone. destruct (RemoveTag_run tagID tr Hok) as [Hz Hrun].
  assert (Hup : fault (data tr) = None).
  { unfold RemoveTag, bind, exec, Update in Hok.
    destruct (fault (data tr)); [discriminate|reflexivity]. }
  assert (Hup' : fault (data tr') = None) by (unfold tr'; rewrite Hrun; exact Hup).
  assert (Hin : In (Tag.set_Status TagStatusDeleted x) (rows (data tr'))).
  { unfold tr'. rewrite Hrun. simpl. apply List.in_map_iff. exists x.
    split; [|exact Hx]. apply String.eqb_eq in Hid. rewrite Hid. reflexivity. }
  unfold gone.
  destruct (shown_fields tr' (Tag.set_Status TagStatusDeleted x))
    as (-> & _ & _ & _ & -> & _).
  split; [reflexivity|]. split; [exact Hid|]. repeat apply conj.
  - intros Hrec.
    apply (listing_unlimited (NewSession |> Asc slug_name |> UseBool [recommend])
             (Some (Tag.set_Recommend true Tag.zero)) tr' _ Hup' eq_refl Hin).
    unfold selects. simpl. rewrite Hrec. reflexivity.
  - intros Hres.
    apply (listing_unlimited (NewSession |> Asc slug_name |> UseBool [reserved])
             (Some (Tag.set_Reserved true Tag.zero)) tr' _ Hup' eq_refl Hin).
    unfold selects. simpl. rewrite Hres. reflexivity.
  - apply (listing_unlimited
             (NewSession |> Where (In_ slug_name (map VStr [Tag.SlugName x]))
                         |> UseBool [recommend; reserved]
                         |> OrderBy recommend_reserved_id_desc)
             None tr' _ Hup' eq_refl Hin).
    unfold selects. simpl. rewrite String.eqb_refl. reflexivity.
Qed.

End WriteThenRead.

Section MoreReadsAndWrites.
Import entity schema xorm tag.
Context `{Consts}.



Section SortPermutation.
Variable cmp : Tag.t -> Tag.t -> comparison.


End SortPermutation.

Lemma sort_rows_no_keys (l : list Tag.t) : sort_rows (order_compare []) l = l.
Proof.
  induction l as [|x l IH]; [reflexivity|].
  change (insert_row (order_compare []) x (sort_rows (order_compare []) l) = x :: l).
  rewrite IH. destruct l; reflexivity.
Qed.

Lemma order_compare_first (c : Col) (d : Dir) (keys : list (Col * Dir)) (a b : Tag.t) :
  order_compare ((c, d) :: keys) a b <> Gt ->
  directed d (value_compare (col_value c a) (col_value c b)) <> Gt.
Proof.
  simpl. destruct (directed d (value_compare (col_value c a) (col_value c b)));
    congruence.
Qed.


(** X17. [GetTagList] ignores the recommend and reserved fields of its
    filter: setting them to any values gives the same result, so the
    filter cannot select by these flags. With the zero filter it returns,
    while the store answers, every available row in table order. *)
Theorem GetTagList_ignores_flags (tag : Tag.t) (tr : tagRepo) :
  (forall b b', GetTagList (Tag.set_Recommend b (Tag.set_Reserved b' tag)) tr
                = GetTagList tag tr) /\
  (fault (data tr) = None ->
   (GetTagList Tag.zero tr).1 =
     (map (shown tr)
          (List.filter (fun x => Z.eqb (Tag.Status x) TagStatusAvailable)
                       (rows (data tr))),
      None)).
Proof.
  split.
  - intros b b'.
    assert (Hconds : bean_conds [] (Some (Tag.set_Recommend b (Tag.set_Reserved b' tag)))
                     = bean_conds [] (Some tag)).
    { unfold bean_conds, bean_cols.
      rewrite (List.filter_ext _ (fun c => bean_uses [] c (col_value c tag)))
        by (intros c; destruct c; reflexivity).
      apply List.map_ext_in. intros c Hc. apply List.filter_In in Hc as [_ Hc].
      destruct c; try reflexivity; discriminate. }
    assert (Hfind : Find (NewSession |> Where available)
                         (Some (Tag.set_Recommend b (Tag.set_Reserved b' tag))) (data tr)
                    = Find (NewSession |> Where available) (Some tag) (data tr)).
    { unfold Find, selected. destruct (fault (data tr)); [reflexivity|].
      do 3 f_equal. apply List.filter_ext. intros x. unfold selects.
      change (mustCols (NewSession |> Where available)) with (@nil Col).
      rewrite Hconds. reflexivity. }
    unfold GetTagList, bind, query. rewrite Hfind. reflexivity.
  - intros Hup.
    change (GetTagList Tag.zero tr) with
      (listing (Find (NewSession |> Where available) (Some Tag.zero)) tr).
    rewrite listing_run. simpl. rewrite Find_rows, Find_error, Hup. simpl.
    unfold window, selected. simpl. rewrite sort_rows_no_keys.
    f_equal. f_equal. apply List.filter_ext. intros x. unfold selects. simpl.
    apply andb_true_r.
Qed.

(** X18. While the store fails with an error, every read returns no row
    and that error wrapped as a database error; the two single-row reads
    return the nil struct with exist false and leave the repository as it
    was, without consulting the site configuration. *)
Theorem reads_on_failing_store (tr : tagRepo) (e : error) :
  fault (data tr) = Some e ->
  (forall op, (run_read op tr).1 = ([], Some (database_error e))) /\
  (forall tagID, GetTagByID tagID tr = (None, false, Some (database_error e), tr)) /\
  (forall slugName,
      GetTagBySlugName slugName tr = (None, false, Some (database_error e), tr)).
Proof.
  intros Hdown.
  assert (Hget : forall s, getting s tr = (None, false, Some (database_error e), tr)).
  { intros s. rewrite getting_run. unfold Get. rewrite Hdown. reflexivity. }
  split; [|split; intros; apply Hget].
  intros op.
  destruct (run_read_shape op) as [(s & bean & _ & Hrun)|(s & _ & Hrun)];
    destruct (Hrun tr) as [-> _].
  - rewrite listing_run. simpl. rewrite Find_rows, Find_error, Hdown. reflexivity.
  - rewrite Hget. reflexivity.
Qed.




(** The rows of a listing are in the order of the session's sort keys, and
    no more than its limit. *)
Lemma listing_Sorted_by (R : Tag.t -> Tag.t -> Prop) (s : Session)
    (bean : option Tag.t) (tr : tagRepo) :
  (forall a b, order_compare (orderBy s) a b <> Gt -> R (shown tr a) (shown tr b)) ->
  Sorted R (listing (Find s bean) tr).1.1.
Proof.
  intros HR. rewrite listing_run. simpl. rewrite Find_rows.
  destruct (fault (data tr)); [constructor|].
  apply Sorted_map, window_Sorted. unfold selected.
  eapply Sorted_weaken; [|apply sort_rows_Sorted, order_compare_total]. exact HR.
Qed.

Lemma listing_length_limited (s : Session) (bean : option Tag.t) (tr : tagRepo) (n : Z) :
  limitN s = Some n ->
  (List.length (listing (Find s bean) tr).1.1 <= Z.to_nat n)%nat.
Proof.
  intros Hlim. rewrite listing_run. simpl. rewrite Find_rows.
  destruct (fault (data tr)); [simpl; lia|].
  rewrite List.length_map. unfold window. rewrite Hlim, List.length_firstn. lia.
Qed.

Lemma GetTagPage_rows (page pageSize : Z) (tag : Tag.t) (queryCond : string)
    (tr : tagRepo) :
  (GetTagPage page pageSize tag queryCond tr).1.2.1.1 =
  (listing (Find (page_session page pageSize tag queryCond)
                 (Some (page_filter tag))) tr).1.1.
Proof.
  rewrite GetTagPage_run. destruct (listing _ tr) as [[l e] tr']. reflexivity.
Qed.

(** X20. With sort mode "name" the rows of a page of [GetTagPage] ascend by
    slug name, with "popular" their question counts descend, and with
    "newest" their creation times descend. *)
Theorem GetTagPage_order (page pageSize : Z) (tag : Tag.t) (tr : tagRepo) :
  Sorted (fun a b => String.leb (Tag.SlugName a) (Tag.SlugName b) = true)
         (GetTagPage page pageSize tag "name" tr).1.2.1.1 /\
  Sorted (fun a b => Tag.QuestionCount b <= Tag.QuestionCount a)
         (GetTagPage page pageSize tag "popular" tr).1.2.1.1 /\
  Sorted (fun a b => Tag.CreatedAt b <= Tag.CreatedAt a)
         (GetTagPage page pageSize tag "newest" tr).1.2.1.1.
Proof.
  repeat apply conj.
  - rewrite GetTagPage_rows. apply listing_Sorted_by. intros a b Hab.
    destruct (shown_fields tr a) as (_ & -> & _).
    destruct (shown_fields tr b) as (_ & -> & _).
    eapply order_compare_slug_first. exact Hab.
  - rewrite GetTagPage_rows. apply listing_Sorted_by. intros a b Hab.
    destruct (shown_more_fields tr a) as (-> & _).
    destruct (shown_more_fields tr b) as (-> & _).
    change (orderBy (page_session page pageSize tag "popular"))
      with [(question_count, DESC)] in Hab.
    apply order_compare_first in Hab. simpl in Hab.
    destruct (Z.compare_spec (Tag.QuestionCount a) (Tag.QuestionCount b));
      simpl in Hab; try lia. congruence.
  - rewrite GetTagPage_rows. apply listing_Sorted_by. intros a b Hab.
    destruct (shown_more_fields tr a) as (_ & -> & _).
    destruct (shown_more_fields tr b) as (_ & -> & _).
    change (orderBy (page_session page pageSize tag "newest"))
      with [(created_at, DESC)] in Hab.
    apply order_compare_first in Hab. simpl in Hab.
    destruct (Z.compare_spec (Tag.CreatedAt a) (Tag.CreatedAt b));
      simpl in Hab; try lia. congruence.
Qed.

(** X21. For every name and hasReserved, [GetTagListByName] returns its
    rows in ascending order of slug name, and with a positive limit at most
    that many rows. *)
Theorem GetTagListByName_limit_and_order
    (name : string) (limit : Z) (hasReserved : bool) (tr : tagRepo) :
  (0 < limit ->
   (List.length (GetTagListByName name limit hasReserved tr).1.1 <= Z.to_nat limit)%nat) /\
  Sorted (fun a b => String.leb (Tag.SlugName a) (Tag.SlugName b) = true)
         (GetTagListByName name limit hasReserved tr).1.1.
Proof.
  assert (Hslug : forall keys a b,
             order_compare ((slug_name, ASC) :: keys) a b <> Gt ->
             String.leb (Tag.SlugName (shown tr a)) (Tag.SlugName (shown tr b)) = true).
  { intros keys a b Hab.
    destruct (shown_fields tr a) as (_ & -> & _).
    destruct (shown_fields tr b) as (_ & -> & _).
    eapply order_compare_slug_first. exact Hab. }
  unfold GetTagListByName.
  destruct (negb (String.eqb name "")), (negb hasReserved); split;
    solve [ intros _; eapply (listing_length_limited _ _ tr limit); reflexivity
          | eapply (listing_Sorted_by _ _ _ tr); apply Hslug ].
Qed.

End MoreReadsAndWrites.

Section InsertionFacts.
Import entity schema xorm tag.
Variable G : Type.
Variable GenUniqueIDStr : string -> G -> (string * option error) * G.
Variable Insert : list Tag.t -> Engine -> error + (Z * Engine).



End InsertionFacts.

Section TimelineExamples.
Import entity schema xorm activity sample.

Local Existing Instance consts.

Lemma GetObjectTimeline_log_witness :
  (GetObjectTimeline svc_degraded timeline_req []).2 =
  [mkLog "" (Some (Err "comment not found"))].
Proof.
  destruct (GetObjectTimeline svc_degraded timeline_req []) as [[e|resp] lg'] eqn:Hrun;
    [vm_compute in Hrun; discriminate|].
  destruct (GetObjectTimeline_log svc_degraded timeline_req [] lg' resp Hrun)
    as (activityList & Hacts & Hlog & _).
  simpl in Hacts. injection Hacts as <-. simpl. rewrite Hlog. vm_compute. reflexivity.
Defined.

Lemma timeline_labels_never_raw_witness :
  exists resp lg',
    GetObjectTimeline svc_degraded timeline_req [] = (inr resp, lg') /\
    Forall (fun item => ~ In (ActObjectTimeline.ActivityType item) raw_labels)
           (Timeline resp).
Proof.
  destruct (GetObjectTimeline svc_degraded timeline_req []) as [[e|resp] lg'] eqn:Hrun;
    [vm_compute in Hrun; discriminate|].
  exists resp, lg'. split; [reflexivity|].
  exact (timeline_labels_never_raw svc_degraded timeline_req [] lg' resp Hrun).
Defined.

Lemma unmapped_activity_is_shown_witness :
  exists resp lg' item,
    GetObjectTimeline svc_unmapped timeline_req [] = (inr resp, lg') /\
    In item (Timeline resp) /\
    ActObjectTimeline.ActivityID item = "a9" /\
    ActObjectTimeline.ObjectType item = "" /\
    ActObjectTimeline.ActivityType item = "".
Proof.
  destruct (GetObjectTimeline svc_unmapped timeline_req []) as [[e|resp] lg'] eqn:Hrun;
    [vm_compute in Hrun; discriminate|].
  destruct (unmapped_activity_is_shown svc_unmapped timeline_req [] lg' resp
              [act "a1" 1 "u1"; act "a9" 9 "u9"] (act "a9" 9 "u9") Hrun eq_refl)
    as (item & Hin & Hid & Hot & Hat & _).
  - simpl. tauto.
  - vm_compute. reflexivity.
  - exists resp, lg', item. auto.
Defined.

Lemma activity_key_decoding_witness :
  (activity_key svc_degraded (act "a1" 1 "u1")).1.1 = "question" /\
  activity_label svc_degraded (act "a1" 1 "u1") = "asked" /\
  "question.asked" = (activity_key svc_degraded (act "a1" 1 "u1")).1.1 ++ "."
                     ++ activity_label svc_degraded (act "a1" 1 "u1").
Proof.
  destruct (activity_key_decoding svc_degraded (act "a1" 1 "u1")) as [Hdot _].
  split; [vm_compute; reflexivity|]. split; [vm_compute; reflexivity|].
  apply Hdot. exists "question", "asked". vm_compute. reflexivity.
Defined.

Lemma GetObjectTimelineDetail_error_witness :
  (GetObjectTimelineDetail svc_user_down detail_req []).1
  = inl (Err "revision not found").
Proof.
  apply (GetObjectTimelineDetail_error svc_user_down detail_req []).
  left. left. reflexivity.
Defined.

End TimelineExamples.

Section RepositoryExamples.
Import entity schema xorm tag sample.

Local Existing Instance consts.

Lemma UpdateTagsAttribute_sets_flag_witness :
  map Tag.Recommend
      (rows (data (UpdateTagsAttribute ["go"; "golang"] "recommend" false (repo true)).2))
  = [false; false; true; false; true; true; false] /\
  UpdateTagsAttribute ["go"] "reserved" true repo_down
  = (Some (database_error (Err "connection refused")), repo_down) /\
  UpdateTagsAttribute ["go"] "Recommend" true repo_down = (None, repo_down).
Proof.
  destruct (UpdateTagsAttribute_sets_flag ["go"; "golang"] false (repo true))
    as [Hup _].
  destruct (UpdateTagsAttribute_sets_flag ["go"] true repo_down)
    as (_ & Hdown & Hother).
  destruct (Hup eq_refl) as [-> _].
  split; [vm_compute; reflexivity|]. split.
  - apply Hdown; [reflexivity|right; reflexivity].
  - apply Hother; discriminate.
Defined.

Lemma UpdateTagSynonym_writes_link_witness :
  map Tag.MainTagID
      (rows (data (UpdateTagSynonym ["golangci"] 0 "" (repo true)).2))
  = [0; 0; 0; 0; 0; 0; 0] /\
  UpdateTagSynonym [] 2 "golang" (repo true) = (None, repo true).
Proof.
  destruct (UpdateTagSynonym_writes_link ["golangci"] 0 "" (repo true)) as [Hrun _].
  destruct (UpdateTagSynonym_writes_link [] 2 "golang" (repo true))
    as (_ & Hempty & _).
  rewrite (Hrun eq_refl). split; [vm_compute; reflexivity|exact (Hempty eq_refl)].
Defined.

Lemma UpdateTagsAttribute_then_flag_listing_witness :
  Forall (fun r => ~ In (Tag.SlugName r) ["go"; "c"])
         (GetRecommendTagList (UpdateTagsAttribute ["go"; "c"] "recommend" false
                                 (repo true)).2).1.1.
Proof.
  destruct (UpdateTagsAttribute_then_flag_listing ["go"; "c"] (repo true) eq_refl)
    as (_ & Hcleared & _).
  exact Hcleared.
Defined.

Lemma UpdateTagSynonym_then_page_witness :
  Forall (fun r => ~ In (Tag.SlugName r) ["go"; "golang"])
         (GetTagPage 1 10 Tag.zero "name"
            (UpdateTagSynonym ["go"; "golang"] 6 "ada" (repo true)).2).1.2.1.1.
Proof.
  apply UpdateTagSynonym_then_page; [reflexivity|discriminate].
Defined.


Lemma RemoveTag_idempotent_witness :
  RemoveTag "1" (RemoveTag "1" (repo true)).2 = (None, (RemoveTag "1" (repo true)).2).
Proof.
  apply RemoveTag_idempotent. vm_compute. reflexivity.
Defined.

Lemma RemoveTag_then_unrestricted_listing_witness :
  In (Tag.set_Status 10 (row "1" "go" "Go" 1 true false 0 5))
     (GetRecommendTagList (RemoveTag "1" (repo true)).2).1.1.
Proof.
  assert (Hok : (RemoveTag "1" (repo true)).1 = None) by (vm_compute; reflexivity).
  destruct (RemoveTag_then_unrestricted_listing "1" (repo true)
              (row "1" "go" "Go" 1 true false 0 5) Hok)
    as (_ & _ & Hrec & _); [simpl; tauto|reflexivity|].
  exact (Hrec eq_refl).
Defined.



Lemma GetTagList_ignores_flags_witness :
  map Tag.SlugName (GetTagList Tag.zero (repo true)).1.1
  = ["go"; "golang"; "gopher"; "c"; "ada"; "golangci"].
Proof.
  destruct (GetTagList_ignores_flags Tag.zero (repo true)) as [_ Hall].
  rewrite (Hall eq_refl). vm_compute. reflexivity.
Defined.

Lemma reads_on_failing_store_witness :
  (run_read ReadRecommend repo_down).1
  = ([], Some (database_error (Err "connection refused"))) /\
  GetTagByID "1" repo_down
  = (None, false, Some (database_error (Err "connection refused")), repo_down).
Proof.
  destruct (reads_on_failing_store repo_down (Err "connection refused") eq_refl)
    as (Hall & Hid & _).
  split; [exact (Hall ReadRecommend)|exact (Hid "1")].
Defined.


Lemma GetTagListByName_limit_and_order_witness :
  (List.length (GetTagListByName "g" 2 true (repo true)).1.1 <= 2)%nat.
Proof.
  destruct (GetTagListByName_limit_and_order "g" 2 true (repo true)) as [Hlen _].
  apply Hlen. reflexivity.
Defined.

(** The generator fails at its fourth call: three ids are drawn, the fourth
    struct has taken the generator's empty id, its revision id is untouched,
    and nothing was inserted. *)
Example AddTagList_partial :
  let '((after, err), (tr', _)) :=
    AddTagList nat counting_ids append_rows
               [new_tag "a"; new_tag "b"; new_tag "c"; new_tag "d"] (repo true, 0%nat) in
  map Tag.ID after = ["100"; "101"; "102"; ""] /\
  map Tag.RevisionID after = ["0"; "0"; "0"; ""] /\
  err = Some (Err "id store unreachable") /\ tr' = repo true.
Proof. vm_compute. repeat split. Qed.

End RepositoryExamples.
